(** * Currency converter: the rate cache, the conversion and the history series

    A shallow embedding of [CurrencyConverter] (src/main.py): the rolling
    cache file, the per-day snapshot files, the live fetch, the conversion
    and the assembly of the historical series, with the properties of the
    specification stated and settled against it.

    The methods are functions in a state-and-exception monad. The state is
    the world the code runs in: the cache file, the snapshot files, the
    provider, the clock, and the trace of what the code read, wrote, asked
    and printed. Values are the Python values that [json.load] builds, with
    the operators the code applies to them and the exceptions these raise on
    values of another shape. Floats are binary64.

    Not modelled: failures of the file system itself (a file that exists
    can be opened, a write succeeds; in particular [base] is taken to name
    a snapshot file in the snapshot directory, with no path separator in
    it), the exhaustion of memory, and the graphical interface. *)

From Stdlib Require Import ZArith Bool List Lia SpecFloat.
From stdpp Require Import gmap strings list fin_maps sorting.

Set Warnings "-register-all".

Open Scope Z_scope.

(** ** Floats

    Python floats are IEEE 754 binary64 values; [spec_float] with
    [prec = 53] and [emax = 1024] is their executable specification. *)

Abbreviation float := spec_float.

Definition prec : Z := 53.
Definition emax : Z := 1024.

Definition float_mul : float -> float -> float := SFmul prec emax.
Definition float_sub : float -> float -> float := SFsub prec emax.
Definition float_ltb : float -> float -> bool := SFltb.
Definition float_eqb : float -> float -> bool := SFeqb.

(** [float(n)] for a Python int: round to nearest, ties to even. *)
Definition float_of_Z (n : Z) : float := binary_normalize prec emax n 0 false.

Definition is_finite (x : float) : bool :=
  match x with
  | S754_zero _ | S754_finite _ _ _ => true
  | S754_infinity _ | S754_nan => false
  end.

Definition is_zero (x : float) : bool :=
  match x with
  | S754_zero _ => true
  | _ => false
  end.

(** ** Python values

    What [json.load] and [response.json()] build: [None], booleans, ints,
    floats, strings, lists, and dicts with string keys. *)

Inductive pyval :=
  | PNone
  | PBool (b : bool)
  | PInt (n : Z)
  | PFloat (x : float)
  | PStr (s : string)
  | PList (l : list pyval)
  | PDict (d : gmap string pyval).

(** ** Exceptions

    Every exception the modelled code can meet is a subclass of
    [Exception]. The last three constructors are the plain [Exception]s
    the code raises itself, one per message, each kept as the f-string it
    is formatted from. *)

Inductive exn :=
  | JSONDecodeError
  | KeyError (k : string)
  | TypeError
  | OverflowError
  | MemoryError
  | FileNotFoundError
  | RequestException
  | CurrencyNotFound (target : string)   (* Exception(f"Currency '{target}' not found") *)
  | ErrorFetching (e : exn)              (* Exception(f"Error fetching exchange rates: {e}") *)
  | ConversionError (e : exn).           (* Exception(f"Conversion error: {e}") *)

Inductive res (A : Type) :=
  | Ok (a : A)
  | Raise (e : exn).
Arguments Ok {A} a.
Arguments Raise {A} e.

(** ** Operators on Python values *)

(** [float(v)] as the arithmetic operators convert their int operand. *)
Definition as_float (v : pyval) : res float :=
  match v with
  | PFloat x => Ok x
  | PInt n =>
      let x := float_of_Z n in
      if is_finite x then Ok x else Raise OverflowError
  | PBool b => Ok (float_of_Z (if b then 1 else 0))
  | _ => Raise TypeError
  end.

(** [key in v] for a string [key]. *)
Definition py_in (key : string) (v : pyval) : res bool :=
  match v with
  | PDict d => Ok (match d !! key with Some _ => true | None => false end)
  | PList l =>
      Ok (existsb (fun x => match x with PStr s => String.eqb key s | _ => false end) l)
  | PStr s => Ok (match String.index 0 key s with Some _ => true | None => false end)
  | _ => Raise TypeError
  end.

(** [v[key]] for a string [key]. *)
Definition py_getitem (v : pyval) (key : string) : res pyval :=
  match v with
  | PDict d =>
      match d !! key with
      | Some x => Ok x
      | None => Raise (KeyError key)
      end
  | _ => Raise TypeError
  end.

(** [v[key] = x] for a string [key]. *)
Definition py_setitem (v : pyval) (key : string) (x : pyval) : res pyval :=
  match v with
  | PDict d => Ok (PDict (<[key := x]> d))
  | _ => Raise TypeError
  end.

(** [a - v] for a float [a]. *)
Definition py_sub (a : float) (v : pyval) : res float :=
  match as_float v with
  | Ok x => Ok (float_sub a x)
  | Raise e => Raise e
  end.

(** A Python number that is no bool: what [convert_currency] is given as
    [amount], the float of [tk.DoubleVar.get()] or an int (the [0] of line
    547). A float stands for itself. *)
Inductive number :=
  | NInt (n : Z)
  | NFloat (x : float).

Coercion NFloat : spec_float >-> number.

(** [sys.maxsize], the largest index of a sequence. *)
Definition sys_maxsize : Z := 2 ^ 63 - 1.

(** [s] repeated [n] times. *)
Fixpoint repeat_string (n : nat) (s : string) : string :=
  match n with
  | O => EmptyString
  | S n' => (s ++ repeat_string n' s)%string
  end.

(** [n * v] for an int [n] and a sequence [v] of length [len]: the count
    has to fit an index; a count below 1 gives the empty sequence; the
    repeated sequence has to fit an index too ([too_long] is the error of
    the sequence type). *)
Definition py_repeat {A : Type} (n len : Z) (too_long : exn) (empty : A)
    (repeated : nat -> A) : res A :=
  if (n <? - sys_maxsize - 1) || (sys_maxsize <? n) then Raise OverflowError
  else if (n <=? 0) || (len =? 0) then Ok empty
  else if sys_maxsize / n <? len then Raise too_long
  else Ok (repeated (Z.to_nat n)).

(** [a * v] for a number [a]: the product of two ints is an int, and
    exact; a float and an int multiply as floats, the int converted first;
    a bool is the int 1 or 0; an int repeats a string or a list. *)
Definition py_mul (a : number) (v : pyval) : res pyval :=
  match a with
  | NFloat x =>
      match as_float v with
      | Ok y => Ok (PFloat (float_mul x y))
      | Raise e => Raise e
      end
  | NInt n =>
      match v with
      | PInt m => Ok (PInt (n * m))
      | PBool b => Ok (PInt (n * (if b then 1 else 0)))
      | PFloat y =>
          let x := float_of_Z n in
          if is_finite x then Ok (PFloat (float_mul x y)) else Raise OverflowError
      | PStr s =>
          py_repeat n (Z.of_nat (String.length s)) OverflowError (PStr EmptyString)
            (fun k => PStr (repeat_string k s))
      | PList l =>
          py_repeat n (Z.of_nat (length l)) MemoryError (PList [])
            (fun k => PList (concat (replicate k l)))
      | PNone | PDict _ => Raise TypeError
      end
  end.

(** [x < n] for a float [x] and an int [n] that a float holds exactly. *)
Definition py_lt (x : float) (n : Z) : bool := float_ltb x (float_of_Z n).

(** ** The state-and-exception monad *)

Definition M (S A : Type) : Type := S -> S * res A.

Definition ret {S A : Type} (a : A) : M S A := fun s => (s, Ok a).

Definition raise {S A : Type} (e : exn) : M S A := fun s => (s, Raise e).

Definition eval {S A : Type} (r : res A) : M S A := fun s => (s, r).

Definition bind {S A B : Type} (m : M S A) (k : A -> M S B) : M S B :=
  fun s =>
    match m s with
    | (s', Ok a) => k a s'
    | (s', Raise e) => (s', Raise e)
    end.

(** [try: m except ...: h]: the handler sees the state the body left. *)
Definition try_except {S A : Type} (m : M S A) (h : exn -> option (M S A)) : M S A :=
  fun s =>
    match m s with
    | (s', Ok a) => (s', Ok a)
    | (s', Raise e) =>
        match h e with
        | Some k => k s'
        | None => (s', Raise e)
        end
    end.

Notation "x <- m ;; k" := (bind m (fun x => k))
  (at level 100, m at next level, right associativity).
Notation "m ;; k" := (bind m (fun _ => k))
  (at level 100, right associativity).

Fixpoint for_each {S A : Type} (l : list A) (body : A -> M S unit) : M S unit :=
  match l with
  | [] => ret tt
  | x :: l' => body x ;; for_each l' body
  end.

(** [range(lo, hi)]. *)
Definition range (lo hi : Z) : list Z := seqZ lo (hi - lo).

(** ** The world: persisted files, provider and clock *)

(** A file holds text that [json.load] either decodes or rejects. *)
Inductive file :=
  | Malformed
  | Json (v : pyval).

(** [cache_file], and [hist_file] for a base and a day. A day is the
    proleptic Gregorian ordinal of its date; the name
    [f"{base}_{date}.json"] ends in a date of fixed width, so it determines
    the pair. *)
Inductive path :=
  | CacheFile
  | HistFile (base : string) (date : Z).

(** What the provider answers to a GET for a base: a transport or HTTP
    failure, or a body. *)
Inductive response :=
  | Unavailable
  | Body (f : file).

Inductive event :=
  | EvExists (p : path)
  | EvRead (p : path)
  | EvWrite (p : path)
  | EvGet (base : string)
  | EvPrint (e : exn).

(** The clock is read, never advanced, by a call: [now] and [today] are
    those of the moment the call is made. *)
Record world := {
  cache_file : option file;
  historical : gmap (string * Z) file;
  provider : string -> response;
  now : float;               (* time.time() *)
  today : Z;                 (* datetime.now(), as a day *)
  trace : list event;        (* input and output so far, latest first *)
}.

Definition cache_timeout : Z := 3600.

Definition lookup_file (p : path) (w : world) : option file :=
  match p with
  | CacheFile => cache_file w
  | HistFile base date => historical w !! (base, date)
  end.

Definition store_file (p : path) (f : file) (w : world) : world :=
  match p with
  | CacheFile =>
      {| cache_file := Some f; historical := historical w; provider := provider w;
         now := now w; today := today w; trace := trace w |}
  | HistFile base date =>
      {| cache_file := cache_file w; historical := <[(base, date) := f]> (historical w);
         provider := provider w; now := now w; today := today w; trace := trace w |}
  end.

Definition log (ev : event) : M world unit :=
  fun w =>
    ({| cache_file := cache_file w; historical := historical w; provider := provider w;
        now := now w; today := today w; trace := ev :: trace w |}, Ok tt).

Definition os_path_exists (p : path) : M world bool :=
  log (EvExists p) ;;
  fun w => (w, Ok (match lookup_file p w with Some _ => true | None => false end)).

(** [open(p, "r")]. *)
Definition open_read (p : path) : M world file :=
  log (EvRead p) ;;
  fun w =>
    match lookup_file p w with
    | Some f => (w, Ok f)
    | None => (w, Raise FileNotFoundError)
    end.

Definition json_load (f : file) : res pyval :=
  match f with
  | Malformed => Raise JSONDecodeError
  | Json v => Ok v
  end.

(** [with open(p, "w") as f: json.dump(v, f)]. *)
Definition json_dump (v : pyval) (p : path) : M world unit :=
  log (EvWrite p) ;;
  fun w => (store_file p (Json v) w, Ok tt).

Definition time_time : M world float := fun w => (w, Ok (now w)).

Definition datetime_now : M world Z := fun w => (w, Ok (today w)).

Definition print (e : exn) : M world unit := log (EvPrint e).

(** [requests.get(url)], [raise_for_status()] and [response.json()]. *)
Definition requests_get_json (base : string) : M world pyval :=
  log (EvGet base) ;;
  fun w =>
    match provider w base with
    | Unavailable => (w, Raise RequestException)
    | Body f => (w, json_load f)
    end.

(** The dict literal [{"timestamp": t, "rates": rates}]. *)
Definition entry (t : float) (rates : pyval) : pyval :=
  PDict (<["timestamp" := PFloat t]> (<["rates" := rates]> ∅)).

(** ** CurrencyConverter *)

(** [_cache_rates] (lines 109-129). *)
Definition _cache_rates (base_currency : string) (rates : pyval) : M world unit :=
  present <- os_path_exists CacheFile ;;
  cache_data <-
    (if present : bool then
       try_except
         (f <- open_read CacheFile ;; eval (json_load f))
         (fun e => match e with
                   | JSONDecodeError => Some (ret (PDict ∅))
                   | _ => None
                   end)
     else ret (PDict ∅)) ;;
  t <- time_time ;;
  cache_data' <- eval (py_setitem cache_data base_currency (entry t rates)) ;;
  json_dump cache_data' CacheFile.

(** [_store_historical] (lines 131-144). The snapshot of a base and a day
    is the file [<base>_<day>.json] of the snapshot directory; opening it
    for writing is taken to succeed, as for every file, which supposes a
    [base] that names a file there. *)
Definition _store_historical (base_currency : string) (rates : pyval) : M world unit :=
  day <- datetime_now ;;
  let hist_file := HistFile base_currency day in
  present <- os_path_exists hist_file ;;
  if present : bool then ret tt
  else
    t <- time_time ;;
    json_dump (entry t rates) hist_file.

(** The cache look-up that opens [get_exchange_rate] (lines 81-90):
    [Some rates] is the early [return], [None] falls through to the
    fetch. *)
Definition cached_rates (base_currency : string) : M world (option pyval) :=
  present <- os_path_exists CacheFile ;;
  if present : bool then
    f <- open_read CacheFile ;;
    try_except
      (cache_data <- eval (json_load f) ;;
       known <- eval (py_in base_currency cache_data) ;;
       if known : bool then
         t <- time_time ;;
         e <- eval (py_getitem cache_data base_currency) ;;
         stamp <- eval (py_getitem e "timestamp") ;;
         age <- eval (py_sub t stamp) ;;
         if py_lt age cache_timeout then
           e' <- eval (py_getitem cache_data base_currency) ;;
           rates <- eval (py_getitem e' "rates") ;;
           ret (Some rates)
         else ret None
       else ret None)
      (fun e => match e with
                | JSONDecodeError | KeyError _ => Some (ret None)
                | _ => None
                end)
  else ret None.

(** [get_exchange_rate] (lines 70-107). *)
Definition get_exchange_rate (base_currency : string) : M world pyval :=
  cached <- cached_rates base_currency ;;
  match cached with
  | Some rates => ret rates
  | None =>
      try_except
        (data <- requests_get_json base_currency ;;
         rates <- eval (py_getitem data "rates") ;;
         _cache_rates base_currency rates ;;
         rates' <- eval (py_getitem data "rates") ;;
         _store_historical base_currency rates' ;;
         eval (py_getitem data "rates"))
        (fun e => Some (raise (ErrorFetching e)))
  end.

(** [convert_currency] (lines 146-165). *)
Definition convert_currency (base_currency target_currency : string) (amount : number)
  : M world pyval :=
  try_except
    (rates <- get_exchange_rate base_currency ;;
     known <- eval (py_in target_currency rates) ;;
     if known : bool then
       rate <- eval (py_getitem rates target_currency) ;;
       eval (py_mul amount rate)
     else raise (CurrencyNotFound target_currency))
    (fun e => Some (raise (ConversionError e))).

(** The two lists [get_historical_rates] appends to live beside the world:
    what was appended before an exception stays appended. *)
Record frame := {
  fw : world;
  dates : list Z;
  rates : list pyval;
}.

Definition in_world {A : Type} (m : M world A) : M frame A :=
  fun s =>
    let (w', r) := m (fw s) in
    ({| fw := w'; dates := dates s; rates := rates s |}, r).

Definition dates_append (d : Z) : M frame unit :=
  fun s => ({| fw := fw s; dates := dates s ++ [d]; rates := rates s |}, Ok tt).

Definition rates_append (v : pyval) : M frame unit :=
  fun s => ({| fw := fw s; dates := dates s; rates := rates s ++ [v] |}, Ok tt).

(** [today - timedelta(days=i)]: a [timedelta] holds at most 999999999
    days, and no date lies before day 1. *)
Definition days_before (day i : Z) : res Z :=
  if 999999999 <? i then Raise OverflowError
  else if day - i <? 1 then Raise OverflowError
  else Ok (day - i).

(** One turn of the loop over [range(1, days)] (lines 192-201). *)
Definition history_step (base_currency target_currency : string) (day i : Z)
  : M frame unit :=
  date <- eval (days_before day i) ;;
  let hist_file := HistFile base_currency date in
  present <- in_world (os_path_exists hist_file) ;;
  if present : bool then
    f <- in_world (open_read hist_file) ;;
    data <- eval (json_load f) ;;
    table <- eval (py_getitem data "rates") ;;
    known <- eval (py_in target_currency table) ;;
    if known : bool then
      dates_append date ;;
      table' <- eval (py_getitem data "rates") ;;
      rate <- eval (py_getitem table' target_currency) ;;
      rates_append rate
    else ret tt
  else ret tt.

(** The body of the [try] (lines 184-201). *)
Definition history_body (base_currency target_currency : string) (days : Z)
  : M frame unit :=
  current_rates <- in_world (get_exchange_rate base_currency) ;;
  known <- eval (py_in target_currency current_rates) ;;
  if known : bool then
    day <- in_world datetime_now ;;
    dates_append day ;;
    rate <- eval (py_getitem current_rates target_currency) ;;
    rates_append rate ;;
    for_each (range 1 days) (history_step base_currency target_currency day)
  else ret tt.

(** [get_historical_rates] (lines 167-207). *)
Definition get_historical_rates (base_currency target_currency : string) (days : Z)
  : M world (list Z * list pyval) :=
  fun w =>
    let (s, _) :=
      try_except
        (history_body base_currency target_currency days)
        (fun e => Some (in_world (print e)))
        {| fw := w; dates := []; rates := [] |} in
    (fw s, Ok (reverse (dates s), reverse (rates s))).

(** ** Vocabulary of the specification *)

(** The clock moves between two calls: [at_time t w] is [w] when
    [time.time()] has become [t], on the same day. *)
Definition at_time (t : float) (w : world) : world :=
  {| cache_file := cache_file w; historical := historical w; provider := provider w;
     now := t; today := today w; trace := trace w |}.

(** Later snapshot writes for [base], each with its own table and clock. *)
Fixpoint later_writes (base : string) (l : list (float * pyval)) (w : world) : world :=
  match l with
  | [] => w
  | (t, table) :: l' =>
      later_writes base l' (fst (_store_historical base table (at_time t w)))
  end.

(** The mapping a cache write starts from: the decoded file when it holds
    a JSON object, the empty mapping when there is no file or it does not
    decode. *)
Definition cache_mapping (w : world) : option (gmap string pyval) :=
  match cache_file w with
  | None | Some Malformed => Some ∅
  | Some (Json (PDict m)) => Some m
  | Some (Json _) => None
  end.

(** [logged evs w]: [w] after the events [evs] (latest first) and nothing
    else. *)
Definition logged (evs : list event) (w : world) : world :=
  {| cache_file := cache_file w; historical := historical w; provider := provider w;
     now := now w; today := today w; trace := evs ++ trace w |}.

(** The rolling cache holds, for [base], an entry with this timestamp (a
    number, read as a float) and this table. *)
Definition cache_entry (base : string) (w : world) (stamp : float) (table : pyval) : Prop :=
  exists m e v,
    cache_file w = Some (Json (PDict m))
    /\ m !! base = Some (PDict e)
    /\ e !! "timestamp" = Some v
    /\ as_float v = Ok stamp
    /\ e !! "rates" = Some table.

(** [now - stamp < cache_timeout]. *)
Definition fresh (w : world) (stamp : float) : Prop :=
  float_ltb (float_sub (now w) stamp) (float_of_Z cache_timeout) = true.

(** The persisted format of an entry: an object with a numeric
    [timestamp] and a [rates] field. *)
Definition well_formed_entry (v : pyval) : Prop :=
  exists e t stamp table,
    v = PDict e
    /\ e !! "timestamp" = Some t
    /\ as_float t = Ok stamp
    /\ e !! "rates" = Some table.

(** The cache file is as the code leaves it: absent, or a JSON object of
    well-formed entries; a file that does not decode is admitted too. *)
Definition cache_well_formed (w : world) : Prop :=
  match cache_file w with
  | None | Some Malformed => True
  | Some (Json (PDict m)) => forall b v, m !! b = Some v -> well_formed_entry v
  | Some (Json _) => False
  end.

(** The cache file fits the look-up of [base] and the write that follows a
    fetch: there is none, or it does not decode, or it is a JSON object in
    which the entry of [base], if there is one, is an object whose
    [timestamp], if it has one, is a number (one a float can hold). What
    the other entries are does not matter, nor whether the entry of [base]
    has a [rates] field. *)
Definition cache_usable (base : string) (w : world) : Prop :=
  match cache_file w with
  | None | Some Malformed => True
  | Some (Json (PDict m)) =>
      match m !! base with
      | None => True
      | Some (PDict e) =>
          match e !! "timestamp" with
          | None => True
          | Some v => exists stamp, as_float v = Ok stamp
          end
      | Some _ => False
      end
  | Some (Json _) => False
  end.

(** The provider answers the GET for [base] with an object that has this
    table as its [rates] field. *)
Definition provider_answers (w : world) (base : string) (table : pyval) : Prop :=
  exists body, provider w base = Body (Json (PDict body)) /\ body !! "rates" = Some table.

(** [w'] differs from [w] by its trace at most. *)
Definition same_files (w w' : world) : Prop :=
  cache_file w' = cache_file w
  /\ historical w' = historical w
  /\ provider w' = provider w
  /\ now w' = now w
  /\ today w' = today w.

(** What a caller sees when the target is unknown: the [Exception] whose
    message is "Conversion error: Currency '<target>' not found". *)
Definition UnknownCurrency (target : string) : exn :=
  ConversionError (CurrencyNotFound target).

(** The rate as a number, when it is one; a bool is the int 1 or 0. *)
Definition rate_number (v : pyval) : option number :=
  match v with
  | PInt n => Some (NInt n)
  | PBool b => Some (NInt (if b then 1 else 0))
  | PFloat x => Some (NFloat x)
  | _ => None
  end.

(** [float(a)]: an int beyond the range of the floats has none. *)
Definition number_float (a : number) : res float :=
  match a with
  | NFloat x => Ok x
  | NInt n => if is_finite (float_of_Z n) then Ok (float_of_Z n) else Raise OverflowError
  end.

(** The product of two numbers: that of the integers when both are ints,
    the binary64 product of their floats otherwise. *)
Definition product (a b : number) : res pyval :=
  match a, b with
  | NInt k, NInt n => Ok (PInt (k * n))
  | _, _ =>
      match number_float a, number_float b with
      | Ok x, Ok y => Ok (PFloat (float_mul x y))
      | Raise e, _ => Raise e
      | _, Raise e => Raise e
      end
  end.

(** A number whose float is finite. *)
Definition finite_number (a : number) : bool :=
  match number_float a with
  | Ok x => is_finite x
  | Raise _ => false
  end.

(** The int 0, or a float zero of either sign. *)
Definition zero_number (a : number) : bool :=
  match a with
  | NInt n => n =? 0
  | NFloat x => is_zero x
  end.

(** The same, of a value. *)
Definition zero_value (v : pyval) : bool :=
  match v with
  | PInt n => n =? 0
  | PFloat x => is_zero x
  | _ => false
  end.

(** What reaches the caller of [convert_currency]: a result as it is, an
    exception wrapped. *)
Definition converted (r : res pyval) : res pyval :=
  match r with
  | Ok v => Ok v
  | Raise e => Raise (ConversionError e)
  end.

(** The binary64 value nearest to 0.9. *)
Definition float_0_9 : float := S754_finite false 8106479329266893 (-53).

Definition float_inf : float := S754_infinity false.

(** The [rates] field of a decoded file or body. *)
Definition rates_field (f : file) : option pyval :=
  match f with
  | Json (PDict d) => d !! "rates"
  | _ => None
  end.

Definition is_mapping (v : pyval) : Prop := exists d, v = PDict d.

(** The [rates] field of every snapshot of [base] is a JSON object. *)
Definition snapshots_are_mappings (base : string) (w : world) : Prop :=
  forall day f table,
    historical w !! (base, day) = Some f -> rates_field f = Some table ->
    is_mapping table.

(** Every [rates] field held for [base] (by the cache entry, by the
    provider's answer and by the snapshots) is a JSON object. *)
Definition tables_are_mappings (base : string) (w : world) : Prop :=
  (forall m e table,
     cache_file w = Some (Json (PDict m)) -> m !! base = Some (PDict e) ->
     e !! "rates" = Some table -> is_mapping table)
  /\ (forall f table,
        provider w base = Body f -> rates_field f = Some table -> is_mapping table)
  /\ snapshots_are_mappings base w.

(** The invariant of the loop of [get_historical_rates] when it is about
    to look [n] days back from [day]: the dates appended so far start with
    [day], are more recent than [day - n], read in ascending order once
    reversed, and are at most [n]; no more rates than dates were appended. *)
Definition series_ok (day n : Z) (s : frame) : Prop :=
  head (dates s) = Some day
  /\ StronglySorted Z.lt (reverse (dates s))
  /\ Forall (fun d => day - n < d) (dates s)
  /\ Z.of_nat (length (dates s)) <= n
  /\ (length (rates s) <= length (dates s))%nat.

(** The event touches the snapshot of [base] for a day other than [day]. *)
Definition prior_snapshot_event (day : Z) (ev : event) : Prop :=
  match ev with
  | EvExists (HistFile _ d) | EvRead (HistFile _ d) | EvWrite (HistFile _ d) => d <> day
  | _ => False
  end.

(** ** Example worlds *)

Definition eur_table : pyval := PDict {["EUR" := PFloat float_0_9]}.

(** A table as the provider sends it: a float rate, and the int [1] for
    the base itself. *)
Definition usd_table : pyval :=
  PDict (<["EUR" := PFloat float_0_9]> (<["USD" := PInt 1]> ∅)).

Definition body_of (table : pyval) : file := Json (PDict {["rates" := table]}).

Definition answers (table : pyval) (base : string) : response :=
  if String.eqb base "USD" then Body (body_of table) else Unavailable.

Definition offline (base : string) : response := Unavailable.

Definition noon : float := float_of_Z 1700000000.
Definition this_day : Z := 738838.

(** No file yet; the provider knows USD. *)
Definition fresh_install : world :=
  {| cache_file := None; historical := ∅; provider := answers usd_table;
     now := noon; today := this_day; trace := [] |}.

Definition with_provider (p : string -> response) (w : world) : world :=
  {| cache_file := cache_file w; historical := historical w; provider := p;
     now := now w; today := today w; trace := trace w |}.

Definition with_cache (f : file) (w : world) : world :=
  {| cache_file := Some f; historical := historical w; provider := provider w;
     now := now w; today := today w; trace := trace w |}.

Definition without_cache (w : world) : world :=
  {| cache_file := None; historical := historical w; provider := provider w;
     now := now w; today := today w; trace := trace w |}.

Definition with_snapshots (h : gmap (string * Z) file) (w : world) : world :=
  {| cache_file := cache_file w; historical := h; provider := provider w;
     now := now w; today := today w; trace := trace w |}.

Definition offline_install : world := with_provider offline fresh_install.

(** The cache holds [{"EUR": 0.9}] for USD, written 1000 seconds ago; the
    provider cannot be reached. *)
Definition cached_world : world :=
  with_cache
    (Json (PDict {["USD" := entry (float_of_Z 1699999000) eur_table]}))
    offline_install.



(** Snapshots for three of the six days before [this_day]. *)
Definition three_snapshots : world :=
  with_snapshots
    (<[("USD", this_day - 1) := Json (entry noon usd_table)]>
       (<[("USD", this_day - 3) := Json (entry noon usd_table)]>
          (<[("USD", this_day - 6) := Json (entry noon usd_table)]> ∅)))
    fresh_install.

(** The provider answers [{"rates": {"EUR": 1e999}}]; the literal overflows
    to infinity when decoded. *)
Definition infinite_rate : world :=
  with_provider (answers (PDict {["EUR" := PFloat float_inf]})) fresh_install.

(** The provider answers [{"rates": {"EUR": 1e400}}] with the rate written
    as an int of 401 digits: a finite number that no float holds. *)
Definition huge_rate : world :=
  with_provider (answers (PDict {["EUR" := PInt (10 ^ 400)]})) fresh_install.

(** The provider answers [{"rates": ["EUR"]}]. *)
Definition list_of_codes : world :=
  with_provider (answers (PList [PStr "EUR"])) fresh_install.

(** The cache file holds the JSON text [[]]. *)
Definition cache_is_array : world := with_cache (Json (PList [])) fresh_install.

(** The cache file holds the JSON text [{"USD": 1}]. *)
Definition cache_entry_is_number : world :=
  with_cache (Json (PDict {["USD" := PInt 1]})) fresh_install.

(** Snapshots of earlier days hold a rate for ZZZ; today's table does not. *)
Definition zzz_in_snapshots : world :=
  with_snapshots
    (<[("USD", this_day - 1) := Json (entry noon (PDict {["ZZZ" := PFloat float_0_9]}))]>
       (<[("USD", this_day - 2) := Json (entry noon (PDict {["ZZZ" := PFloat float_0_9]}))]> ∅))
    fresh_install.

(** ** Vocabulary for the further properties *)

(** The rate of [target] that the snapshot of [base] for day [d] holds,
    when there is such a snapshot and it has the persisted shape. *)
Definition snapshot_rate (h : gmap (string * Z) file) (base target : string) (d : Z)
  : option pyval :=
  match h !! (base, d) with
  | Some (Json (PDict data)) =>
      match data !! "rates" with
      | Some (PDict table) => table !! target
      | _ => None
      end
  | _ => None
  end.

(** A snapshot file that the loop of [get_historical_rates] reads without
    an exception: an object whose [rates] field is an object. *)
Definition readable_snapshot (f : file) : Prop :=
  exists data table, f = Json (PDict data) /\ data !! "rates" = Some (PDict table).

(** The points of the days before [day], most recent first, that the
    snapshots hold for the pair: one for each of the [days - 1] previous
    days whose snapshot has a rate for [target]. *)
Definition earlier_points (h : gmap (string * Z) file) (base target : string)
  (day days : Z) : list (Z * pyval) :=
  omap (fun i => pair (day - i) <$> snapshot_rate h base target (day - i))
       (seqZ 1 (days - 1)).

(** The snapshot of [base] for day [d] has a [rates] field in which
    [target] is found. *)
Definition holds_target (h : gmap (string * Z) file) (base target : string) (d : Z)
  : Prop :=
  exists f table,
    h !! (base, d) = Some f /\ rates_field f = Some table
    /\ py_in target table = Ok true.

(** ** The list of currencies

    [load_currencies] (lines 36-68) keeps the currencies in a third file,
    [currencies.json], and in two attributes of the converter. *)

(** Its exceptions: those above, and the [AttributeError] of a method
    called on a value that has none. *)
Inductive load_exn :=
  | Builtin (e : exn)
  | AttributeError.

Record converter := {
  cw : world;                       (* the files above, the provider, the clock *)
  currencies_file : option file;    (* currencies.json *)
  currencies : list string;         (* self.currencies *)
  available_currencies : pyval;     (* self.available_currencies *)
  printed : list load_exn;          (* "Error loading currencies: {e}", latest first *)
}.

Definition L (A : Type) : Type := converter -> converter * (A + load_exn).

Definition l_ret {A : Type} (a : A) : L A := fun s => (s, inl a).

Definition l_eval {A : Type} (r : A + load_exn) : L A := fun s => (s, r).

Definition l_bind {A B : Type} (m : L A) (k : A -> L B) : L B :=
  fun s =>
    match m s with
    | (s', inl a) => k a s'
    | (s', inr e) => (s', inr e)
    end.

Notation "x <~ m ;; k" := (l_bind m (fun x => k))
  (at level 100, m at next level, right associativity).
Notation "m ;;; k" := (l_bind m (fun _ => k))
  (at level 100, right associativity).

(** A result of the operators above, among the exceptions of
    [load_currencies]. *)
Definition builtin {A : Type} (r : res A) : A + load_exn :=
  match r with
  | Ok a => inl a
  | Raise e => inr (Builtin e)
  end.

(** A computation on the world, run on the world of the converter. *)
Definition on_world {A : Type} (m : M world A) : L A :=
  fun s =>
    let (w', r) := m (cw s) in
    ({| cw := w'; currencies_file := currencies_file s; currencies := currencies s;
        available_currencies := available_currencies s; printed := printed s |},
     builtin r).

(** [v.get(key, default)]. *)
Definition py_get (v : pyval) (key : string) (default : pyval) : pyval + load_exn :=
  match v with
  | PDict d =>
      inl (match d !! key with
           | Some x => x
           | None => default
           end)
  | _ => inr AttributeError
  end.

(** The order of [sorted] on strings: lexicographic, character by
    character. *)
Definition str_le (a b : string) : Prop := String.leb a b = true.

#[global] Instance str_le_dec (a b : string) : Decision (str_le a b).
Proof. unfold str_le. apply _. Defined.

(** [sorted(list(v.keys()))]. *)
Definition sorted_keys (v : pyval) : list string + load_exn :=
  match v with
  | PDict d => inl (merge_sort str_le (fst <$> map_to_list d))
  | _ => inr AttributeError
  end.

(** [{code: code for code in v.keys()}]. *)
Definition codes_of_keys (v : pyval) : pyval + load_exn :=
  match v with
  | PDict d => inl (PDict (map_imap (fun code _ => Some (PStr code)) d))
  | _ => inr AttributeError
  end.

(** [{code: code for code in l}]. *)
Definition codes_of_list (l : list string) : pyval :=
  PDict (list_to_map ((fun code => (code, PStr code)) <$> l)).

Definition default_currencies : list string :=
  ["USD"; "EUR"; "GBP"; "JPY"; "CAD"; "AUD"; "CHF"; "CNY"; "INR"].

Definition currencies_timeout : Z := 86400.

Definition set_available_currencies (v : pyval) : L unit :=
  fun s =>
    ({| cw := cw s; currencies_file := currencies_file s; currencies := currencies s;
        available_currencies := v; printed := printed s |}, inl tt).

Definition set_currencies (l : list string) : L unit :=
  fun s =>
    ({| cw := cw s; currencies_file := currencies_file s; currencies := l;
        available_currencies := available_currencies s; printed := printed s |}, inl tt).

Definition get_available_currencies : L pyval :=
  fun s => (s, inl (available_currencies s)).

(** [with open(currencies.json, "w") as f: json.dump(v, f)]. *)
Definition dump_currencies (v : pyval) : L unit :=
  fun s =>
    ({| cw := cw s; currencies_file := Some (Json v); currencies := currencies s;
        available_currencies := available_currencies s; printed := printed s |}, inl tt).

(** The dict literal [{"timestamp": t, "currencies": available}]. *)
Definition currencies_record (t : float) (available : pyval) : pyval :=
  PDict (<["timestamp" := PFloat t]> (<["currencies" := available]> ∅)).

(** The cached list, lines 40-46: [true] is the early [return]. *)
Definition cached_currencies : L bool :=
  fun s =>
    match currencies_file s with
    | None => (s, inl false)
    | Some f =>
        (data <~ l_eval (builtin (json_load f)) ;;
         t <~ on_world time_time ;;
         stamp <~ l_eval (py_get data "timestamp" (PInt 0)) ;;
         age <~ l_eval (builtin (py_sub t stamp)) ;;
         if py_lt age currencies_timeout then
           available <~ l_eval (py_get data "currencies" (PDict ∅)) ;;
           set_available_currencies available ;;;
           available' <~ get_available_currencies ;;
           codes <~ l_eval (sorted_keys available') ;;
           set_currencies codes ;;;
           l_ret true
         else l_ret false) s
    end.

(** The body of the [try], lines 39-62. *)
Definition load_currencies_body : L unit :=
  cached <~ cached_currencies ;;
  if cached : bool then l_ret tt
  else
    body <~ on_world (requests_get_json "USD") ;;
    rates <~ l_eval (py_get body "rates" (PDict ∅)) ;;
    available <~ l_eval (codes_of_keys rates) ;;
    set_available_currencies available ;;;
    available' <~ get_available_currencies ;;
    codes <~ l_eval (sorted_keys available') ;;
    set_currencies codes ;;;
    t <~ on_world time_time ;;
    available'' <~ get_available_currencies ;;
    dump_currencies (currencies_record t available'').

(** [load_currencies] (lines 36-68). *)
Definition load_currencies (s : converter) : converter :=
  match load_currencies_body s with
  | (s', inl _) => s'
  | (s', inr e) =>
      {| cw := cw s'; currencies_file := currencies_file s';
         currencies := default_currencies;
         available_currencies := codes_of_list default_currencies;
         printed := e :: printed s' |}
  end.

(** The converter when [time.time()] has become [t]. *)
Definition converter_at (t : float) (s : converter) : converter :=
  {| cw := at_time t (cw s); currencies_file := currencies_file s;
     currencies := currencies s; available_currencies := available_currencies s;
     printed := printed s |}.

(** [currencies.json] holds no list younger than 24 hours: there is no
    file, or it holds an object whose timestamp (0 when it has none) is
    24 hours old or more. *)
Definition no_fresh_list (s : converter) : Prop :=
  currencies_file s = None
  \/ exists data stamp,
       currencies_file s = Some (Json (PDict data))
       /\ as_float (match data !! "timestamp" with
                    | Some v => v
                    | None => PInt 0
                    end) = Ok stamp
       /\ float_ltb (float_sub (now (cw s)) stamp) (float_of_Z currencies_timeout) = false.

(** The converter as [__init__] leaves it before it calls
    [load_currencies], on a fresh install. *)
Definition first_start : converter :=
  {| cw := fresh_install; currencies_file := None; currencies := [];
     available_currencies := PDict ∅; printed := [] |}.

(** ** Favorites

    [CurrencyConverterApp] keeps the favorite pairs in [self.favorites] and
    in [favorites.json] (lines 241-256, 532-537 and 578-606). Of the
    interface these methods touch, the state holds the two selected
    currencies and the visible tab; a message box and a refresh of the
    list are events. The widgets that [_refresh_favorites_list] rebuilds
    and the threads it starts are not part of the state: the refresh is
    taken to return. As for the cache file, opening [favorites.json] for
    writing is taken to succeed. *)

Inductive ui_event :=
  | AlreadySaved                            (* showinfo("Already Saved", ...) *)
  | FavoriteAdded (base target : string)    (* showinfo("Favorite Added", ...) *)
  | FavoritesRefreshed.                     (* self._refresh_favorites_list() *)

Record app := {
  favorites : pyval;                (* self.favorites *)
  favorites_file : option file;     (* favorites.json *)
  clock : float;                    (* time.time() *)
  base_currency : string;           (* self.base_currency.get() *)
  target_currency : string;         (* self.target_currency.get() *)
  current_tab : Z;                  (* self.tab_control.index("current") *)
  shown : list ui_event;            (* latest first *)
}.

Definition set_favorites (v : pyval) : M app unit :=
  fun s =>
    ({| favorites := v; favorites_file := favorites_file s; clock := clock s;
        base_currency := base_currency s; target_currency := target_currency s;
        current_tab := current_tab s; shown := shown s |}, Ok tt).

Definition show (ev : ui_event) : M app unit :=
  fun s =>
    ({| favorites := favorites s; favorites_file := favorites_file s; clock := clock s;
        base_currency := base_currency s; target_currency := target_currency s;
        current_tab := current_tab s; shown := ev :: shown s |}, Ok tt).

Definition read {A : Type} (field : app -> A) : M app A := fun s => (s, Ok (field s)).

(** [del v[key]] for a string [key]. *)
Definition py_delitem (v : pyval) (key : string) : res pyval :=
  match v with
  | PDict d =>
      match d !! key with
      | Some _ => Ok (PDict (delete key d))
      | None => Raise (KeyError key)
      end
  | _ => Raise TypeError
  end.

(** [_load_favorites] (lines 241-250). *)
Definition _load_favorites : M app pyval :=
  fun s =>
    match favorites_file s with
    | Some f =>
        try_except
          (eval (json_load f))
          (fun e => match e with
                    | JSONDecodeError => Some (ret (PDict ∅))
                    | _ => None
                    end) s
    | None => (s, Ok (PDict ∅))
    end.

(** [_save_favorites] (lines 252-256). *)
Definition _save_favorites : M app unit :=
  fun s =>
    ({| favorites := favorites s; favorites_file := Some (Json (favorites s));
        clock := clock s; base_currency := base_currency s;
        target_currency := target_currency s; current_tab := current_tab s;
        shown := shown s |}, Ok tt).

(** [f"{base}_{target}"]. *)
Definition favorite_id (base target : string) : string :=
  (base ++ "_" ++ target)%string.

(** The dict literal [{"base": base, "target": target, "timestamp": t}]. *)
Definition favorite (base target : string) (t : float) : pyval :=
  PDict (<["base" := PStr base]>
           (<["target" := PStr target]> (<["timestamp" := PFloat t]> ∅))).

(** [add_to_favorites] (lines 578-606). *)
Definition add_to_favorites : M app unit :=
  base <- read base_currency ;;
  target <- read target_currency ;;
  let id := favorite_id base target in
  current <- read favorites ;;
  known <- eval (py_in id current) ;;
  if known : bool then show AlreadySaved
  else
    t <- read clock ;;
    current' <- eval (py_setitem current id (favorite base target t)) ;;
    set_favorites current' ;;
    _save_favorites ;;
    show (FavoriteAdded base target) ;;
    tab <- read current_tab ;;
    if tab =? 2 then show FavoritesRefreshed else ret tt.

(** [_delete_favorite] (lines 532-537). *)
Definition _delete_favorite (id : string) : M app unit :=
  current <- read favorites ;;
  known <- eval (py_in id current) ;;
  if known : bool then
    current' <- eval (py_delitem current id) ;;
    set_favorites current' ;;
    _save_favorites ;;
    show FavoritesRefreshed
  else ret tt.

(** The file holds what the memory holds: what [_load_favorites] would
    read is [self.favorites]. *)
Definition favorites_in_sync (s : app) : Prop :=
  snd (_load_favorites s) = Ok (favorites s).

(** The character of the string ["_"]. *)
Definition underscore : Ascii.ascii := Ascii.ascii_of_nat 95.

Fixpoint has_underscore (s : string) : bool :=
  match s with
  | EmptyString => false
  | String c s' => Ascii.eqb c underscore || has_underscore s'
  end.

(** ** The tick labels of the chart

    [generate_chart] (lines 647-654) labels every date when there are at
    most ten, and every [len(dates) // 5]-th date otherwise. *)

(** [l[::step]], from the element [skip] places ahead; [None] is the
    [ValueError] of a zero step. *)
Fixpoint every_nth {A : Type} (step skip : nat) (l : list A) : list A :=
  match l with
  | [] => []
  | x :: l' =>
      match skip with
      | O => x :: every_nth step (step - 1) l'
      | S skip' => every_nth step skip' l'
      end
  end.

Definition py_slice_step {A : Type} (l : list A) (step : nat) : option (list A) :=
  match step with
  | O => None
  | S _ => Some (every_nth step 0 l)
  end.

Definition chart_ticks {A : Type} (dates : list A) : option (list A) :=
  if (10 <? length dates)%nat then py_slice_step dates (length dates / 5)
  else Some dates.

(** [self.favorites = self._load_favorites()] (line 233). *)
Definition favorites_at_start : M app unit :=
  loaded <- _load_favorites ;;
  set_favorites loaded.

(** The application as [__init__] sets it up (USD to EUR, converter tab)
    over these favorites, saved in the file. *)
Definition app_with (favs : pyval) : app :=
  {| favorites := favs; favorites_file := Some (Json favs); clock := noon;
     base_currency := "USD"; target_currency := "EUR"; current_tab := 0;
     shown := [] |}.

(** * Properties *)

Arguments float_of_Z : simpl never.
Arguments float_sub : simpl never.
Arguments float_mul : simpl never.
Arguments float_ltb : simpl never.

(** Unfold the monad and the primitives of the world down to matches. *)
Ltac run :=
  cbv beta iota zeta delta
    [bind os_path_exists open_read try_except eval ret raise time_time datetime_now
     json_dump json_load log print requests_get_json py_lt py_sub py_mul in_world
     dates_append rates_append] in *;
  simpl in *.

(** Case analysis on the scrutinees, outermost first. *)
Ltac crunch := repeat (case_match; simpl in *; simplify_eq).

(** The events that [t] has on top of [t0]. *)
Ltac prefix_of t t0 :=
  lazymatch t with
  | t0 => constr:(@nil event)
  | ?a :: ?t' => let p := prefix_of t' t0 in constr:(a :: p)
  end.

(** ** Snapshots *)

Lemma _store_historical_present base table w :
  is_Some (historical w !! (base, today w)) ->
  _store_historical base table w =
    (fst (log (EvExists (HistFile base (today w))) w), Ok tt).
Proof.
  intros [f Hsome]. unfold _store_historical, bind, datetime_now, os_path_exists, log, ret.
  simpl. rewrite Hsome. reflexivity.
Qed.

Lemma _store_historical_absent base table w :
  historical w !! (base, today w) = None ->
  _store_historical base table w =
    (store_file (HistFile base (today w)) (Json (entry (now w) table))
       (fst (log (EvWrite (HistFile base (today w)))
          (fst (log (EvExists (HistFile base (today w))) w)))), Ok tt).
Proof.
  intros Hnone.
  unfold _store_historical, bind, datetime_now, os_path_exists, log, ret, time_time,
    json_dump.
  simpl. rewrite Hnone. reflexivity.
Qed.

Lemma later_writes_keep base l : forall w,
  is_Some (historical w !! (base, today w)) ->
  historical (later_writes base l w) = historical w
  /\ cache_file (later_writes base l w) = cache_file w
  /\ today (later_writes base l w) = today w.
Proof.
  induction l as [| [t table] l IH]; intros w Hsome; simpl.
  - auto.
  - rewrite (_store_historical_present base table (at_time t w)) by exact Hsome.
    simpl. destruct (IH (fst (log (EvExists (HistFile base (today w))) (at_time t w))))
      as (Hh & Hc & Ht); [exact Hsome |].
    simpl in *. auto.
Qed.

(** C6. [_store_historical] writes the snapshot of (base, today) only when
    there is none: on a day without a snapshot the table is stored; on a
    day with one the files are left as they are and nothing is written;
    and whatever tables later writes of that day bring, the stored snapshot
    stays the one of the first write. The snapshots are a map keyed by
    (base, day), so there is at most one per key. *)
Theorem store_historical_first_write_wins base table w :
  let day := today w in
  let w1 := fst (_store_historical base table w) in
  snd (_store_historical base table w) = Ok tt
  /\ (historical w !! (base, day) = None ->
        historical w1 = <[(base, day) := Json (entry (now w) table)]> (historical w))
  /\ (is_Some (historical w !! (base, day)) ->
        historical w1 = historical w
        /\ trace w1 = EvExists (HistFile base day) :: trace w)
  /\ (forall l, historical (later_writes base l w1) = historical w1)
  /\ (historical w !! (base, day) = None ->
        forall l, historical (later_writes base l w1) !! (base, day)
                  = Some (Json (entry (now w) table))).
Proof.
  intros day w1.
  assert (Hcases : historical w !! (base, day) = None
                   \/ is_Some (historical w !! (base, day))).
  { destruct (historical w !! (base, day)) eqn:E; [right; eauto | left; reflexivity]. }
  assert (Hw1 : is_Some (historical w1 !! (base, today w1))).
  { subst w1. destruct Hcases as [Hnone | Hsome].
    - rewrite (_store_historical_absent _ _ _ Hnone). simpl.
      rewrite lookup_insert_eq. eauto.
    - rewrite (_store_historical_present _ _ _ Hsome). simpl. exact Hsome. }
  assert (Hkeep : forall l, historical (later_writes base l w1) = historical w1).
  { intros l. apply (later_writes_keep base l w1 Hw1). }
  split; [| split; [| split; [| split]]].
  - subst w1. destruct Hcases as [Hnone | Hsome].
    + rewrite (_store_historical_absent _ _ _ Hnone). reflexivity.
    + rewrite (_store_historical_present _ _ _ Hsome). reflexivity.
  - intros Hnone. subst w1. rewrite (_store_historical_absent _ _ _ Hnone). reflexivity.
  - intros Hsome. subst w1. rewrite (_store_historical_present _ _ _ Hsome). auto.
  - exact Hkeep.
  - intros Hnone l. rewrite Hkeep. subst w1.
    rewrite (_store_historical_absent _ _ _ Hnone). simpl.
    apply lookup_insert_eq.
Qed.

(** ** The rolling cache *)

Lemma _cache_rates_mapping base table w m :
  cache_mapping w = Some m ->
  _cache_rates base table w =
    (store_file CacheFile (Json (PDict (<[base := entry (now w) table]> m)))
       (fst (log (EvWrite CacheFile)
          (match cache_file w with
           | Some _ => fst (log (EvRead CacheFile) (fst (log (EvExists CacheFile) w)))
           | None => fst (log (EvExists CacheFile) w)
           end))), Ok tt).
Proof.
  unfold cache_mapping. intros Hm.
  unfold _cache_rates, bind, os_path_exists, open_read, try_except, eval, ret, time_time,
    json_dump, log.
  simpl.
  destruct (cache_file w) as [[| v] |] eqn:Hc; simpl.
  - injection Hm as <-. reflexivity.
  - destruct v; try discriminate. injection Hm as <-. reflexivity.
  - injection Hm as <-. reflexivity.
Qed.

(** C8. [_cache_rates] upserts the entry of [base] with the current
    timestamp and leaves the entry of every other base of the persisted
    mapping as it was. *)
Theorem cache_rates_keeps_other_bases base table w m :
  cache_mapping w = Some m ->
  exists w' m',
    _cache_rates base table w = (w', Ok tt)
    /\ cache_mapping w' = Some m'
    /\ m' !! base = Some (entry (now w) table)
    /\ (forall other, other <> base -> m' !! other = m !! other)
    /\ historical w' = historical w.
Proof.
  intros Hm. eexists _, (<[base := entry (now w) table]> m).
  split; [apply (_cache_rates_mapping _ _ _ _ Hm) |].
  split; [reflexivity |].
  split; [apply lookup_insert_eq |].
  split.
  - intros other Hne. apply lookup_insert_ne. congruence.
  - simpl. destruct (cache_file w); reflexivity.
Qed.

Lemma _store_historical_total base table w :
  snd (_store_historical base table w) = Ok tt.
Proof.
  destruct (historical w !! (base, today w)) eqn:E.
  - rewrite _store_historical_present by eauto. reflexivity.
  - rewrite _store_historical_absent by exact E. reflexivity.
Qed.

Lemma _store_historical_files base table w :
  let w' := fst (_store_historical base table w) in
  cache_file w' = cache_file w
  /\ historical w' =
       match historical w !! (base, today w) with
       | Some _ => historical w
       | None => <[(base, today w) := Json (entry (now w) table)]> (historical w)
       end
  /\ provider w' = provider w /\ now w' = now w /\ today w' = today w
  /\ exists evs, trace w' = evs ++ trace w.
Proof.
  simpl. destruct (historical w !! (base, today w)) eqn:E.
  - rewrite _store_historical_present by eauto. simpl.
    repeat split; try reflexivity. exists [EvExists (HistFile base (today w))]. reflexivity.
  - rewrite _store_historical_absent by exact E. simpl.
    repeat split; try reflexivity.
    exists [EvWrite (HistFile base (today w)); EvExists (HistFile base (today w))].
    reflexivity.
Qed.

Lemma _cache_rates_files base table w m :
  cache_mapping w = Some m ->
  let w' := fst (_cache_rates base table w) in
  snd (_cache_rates base table w) = Ok tt
  /\ cache_file w' = Some (Json (PDict (<[base := entry (now w) table]> m)))
  /\ historical w' = historical w
  /\ provider w' = provider w /\ now w' = now w /\ today w' = today w
  /\ exists evs, trace w' = evs ++ trace w.
Proof.
  intros Hm. simpl. rewrite (_cache_rates_mapping _ _ _ _ Hm). simpl.
  destruct (cache_file w); simpl; repeat split; try reflexivity.
  - exists [EvWrite CacheFile; EvRead CacheFile; EvExists CacheFile]. reflexivity.
  - exists [EvWrite CacheFile; EvExists CacheFile]. reflexivity.
Qed.

Lemma cache_well_formed_mapping w :
  cache_well_formed w -> exists m, cache_mapping w = Some m.
Proof.
  unfold cache_well_formed, cache_mapping.
  destruct (cache_file w) as [[| v] |]; eauto.
  destruct v; try contradiction; eauto.
Qed.


(** A cache file as the code leaves it is usable for every base. *)
Lemma cache_well_formed_usable base w :
  cache_well_formed w -> cache_usable base w.
Proof.
  unfold cache_well_formed, cache_usable.
  destruct (cache_file w) as [[| v] |]; auto.
  destruct v; auto. intros Hwf.
  destruct (d !! base) as [v |] eqn:Hb; [| exact I].
  destruct (Hwf _ _ Hb) as (e & t & stamp & table & -> & -> & Ha & _). eauto.
Qed.

(** When the file decodes to something that is no mapping the write raises
    and the file stays as it was. *)
Lemma _cache_rates_not_a_mapping base table w :
  cache_mapping w = None ->
  snd (_cache_rates base table w) = Raise TypeError
  /\ cache_file (fst (_cache_rates base table w)) = cache_file w
  /\ historical (fst (_cache_rates base table w)) = historical w.
Proof.
  unfold cache_mapping, _cache_rates, py_setitem. intros Hm.
  run. crunch; auto.
Qed.

(** ** The cache policy of [get_exchange_rate] *)

Lemma cached_rates_hit base w stamp table :
  cache_entry base w stamp table -> fresh w stamp ->
  cached_rates base w = (logged [EvRead CacheFile; EvExists CacheFile] w, Ok (Some table)).
Proof.
  intros (m & e & v & Hc & Hm & Hs & Ha & Hr) Hf. unfold fresh in Hf.
  unfold cached_rates. run.
  rewrite Hc. simpl. rewrite Hm. simpl. rewrite Hs, Ha. simpl. rewrite Hf. rewrite Hr.
  unfold logged. rewrite Hc. reflexivity.
Qed.


Lemma cached_rates_same_files base w :
  same_files w (fst (cached_rates base w)).
Proof.
  unfold same_files, cached_rates. run. crunch; auto.
Qed.




Lemma cache_mapping_entries w m :
  cache_well_formed w -> cache_mapping w = Some m ->
  forall b v, m !! b = Some v -> well_formed_entry v.
Proof.
  unfold cache_well_formed, cache_mapping.
  destruct (cache_file w) as [[| v0] |]; intros Hwf Hm b v Hb.
  - injection Hm as <-. rewrite lookup_empty in Hb. discriminate.
  - destruct v0; try contradiction. injection Hm as <-. eauto.
  - injection Hm as <-. rewrite lookup_empty in Hb. discriminate.
Qed.

Lemma entry_well_formed t table : well_formed_entry (entry t table).
Proof.
  unfold well_formed_entry, entry. eexists _, (PFloat t), t, table.
  split; [reflexivity |]. repeat split; reflexivity.
Qed.

Lemma cache_well_formed_same w w' :
  cache_file w' = cache_file w -> cache_well_formed w -> cache_well_formed w'.
Proof. unfold cache_well_formed. intros ->. auto. Qed.

(** The code keeps the cache file well formed: starting from no file, every
    state it reaches is usable for every base, as C1 supposes. *)
Lemma get_exchange_rate_keeps_well_formed base w :
  cache_well_formed w -> cache_well_formed (fst (get_exchange_rate base w)).
Proof.
  intros Hwf.
  destruct (cache_well_formed_mapping w Hwf) as [m Hm].
  pose proof (cached_rates_same_files base w) as (Hc0 & _).
  unfold get_exchange_rate, bind at 1.
  destruct (cached_rates base w) as [w0 [[r |] | e]]; simpl in Hc0;
    try (simpl; apply (cache_well_formed_same w); assumption).
  unfold try_except, bind at 1. unfold requests_get_json, bind at 1, log. simpl.
  set (w1 := {| cache_file := cache_file w0; historical := historical w0;
                provider := provider w0; now := now w0; today := today w0;
                trace := EvGet base :: trace w0 |}).
  assert (Hwf1 : cache_well_formed w1) by (apply (cache_well_formed_same w); assumption).
  assert (Hm1 : cache_mapping w1 = Some m).
  { unfold cache_mapping in *. simpl. rewrite Hc0. exact Hm. }
  destruct (provider w0 base) as [| f]; [exact Hwf1 |].
  destruct (json_load f) as [data | e]; [| exact Hwf1].
  unfold bind at 1, eval at 1.
  destruct (py_getitem data "rates") as [table | e] eqn:Hg; [| exact Hwf1].
  unfold bind at 1.
  destruct (_cache_rates_files base table w1 m Hm1) as (Hr2 & Hc2 & _).
  rewrite (surjective_pairing (_cache_rates base table w1)), Hr2.
  set (w2 := fst (_cache_rates base table w1)) in *.
  unfold bind at 1, eval at 1. unfold bind at 1.
  destruct (_store_historical_files base table w2) as (Hc3 & _).
  rewrite (surjective_pairing (_store_historical base table w2)), _store_historical_total.
  unfold eval. simpl.
  unfold cache_well_formed. rewrite Hc3, Hc2.
  intros b v Hb. destruct (decide (b = base)) as [-> | Hne].
  - rewrite lookup_insert_eq in Hb. injection Hb as <-. apply entry_well_formed.
  - rewrite lookup_insert_ne in Hb by congruence.
    exact (cache_mapping_entries w m Hwf Hm b v Hb).
Qed.

Lemma get_exchange_rate_clock base w :
  let w' := fst (get_exchange_rate base w) in
  provider w' = provider w /\ now w' = now w /\ today w' = today w.
Proof.
  unfold get_exchange_rate, cached_rates, _cache_rates, _store_historical, py_setitem.
  run. crunch; auto.
Qed.

Lemma get_exchange_rate_source base w table :
  snd (get_exchange_rate base w) = Ok table ->
  (exists m e,
     cache_file w = Some (Json (PDict m))
     /\ m !! base = Some (PDict e)
     /\ e !! "rates" = Some table
     /\ historical (fst (get_exchange_rate base w)) = historical w)
  \/ (exists body,
        provider w base = Body (Json (PDict body))
        /\ body !! "rates" = Some table
        /\ historical (fst (get_exchange_rate base w))
           = match historical w !! (base, today w) with
             | Some _ => historical w
             | None => <[(base, today w) := Json (entry (now w) table)]> (historical w)
             end).
Proof.
  unfold get_exchange_rate, cached_rates, _cache_rates, _store_historical, py_setitem,
    py_getitem.
  run. intros H.
  crunch; first [solve [left; eauto 10] | solve [right; eauto 10]].
Qed.

(** ** Conversion *)

Lemma as_float_raises v e :
  as_float v = Raise e -> e = TypeError \/ e = OverflowError.
Proof. unfold as_float. intros H. crunch; auto. Qed.

Lemma get_exchange_rate_raises base w e :
  snd (get_exchange_rate base w) = Raise e ->
  (exists e', e = ErrorFetching e') \/ e = TypeError \/ e = OverflowError.
Proof.
  unfold get_exchange_rate, cached_rates, _cache_rates, _store_historical, py_setitem,
    py_getitem, py_in, as_float.
  run. intros H.
  crunch; eauto;
    match goal with
    | H : as_float _ = Raise _ |- _ => apply as_float_raises in H; destruct H; discriminate
    end.
Qed.

Lemma convert_currency_cases base target amount w :
  convert_currency base target amount w =
    (fst (get_exchange_rate base w),
     match snd (get_exchange_rate base w) with
     | Raise e => Raise (ConversionError e)
     | Ok table =>
         match py_in target table with
         | Raise e => Raise (ConversionError e)
         | Ok false => Raise (UnknownCurrency target)
         | Ok true =>
             match py_getitem table target with
             | Raise e => Raise (ConversionError e)
             | Ok rate =>
                 match py_mul amount rate with
                 | Ok x => Ok x
                 | Raise e => Raise (ConversionError e)
                 end
             end
         end
     end).
Proof.
  unfold convert_currency, try_except, bind, eval, raise, UnknownCurrency.
  destruct (get_exchange_rate base w) as [w1 [table | e]]; simpl; [| reflexivity].
  destruct (py_in target table) as [[|] | e]; simpl; try reflexivity.
  destruct (py_getitem table target) as [rate | e]; simpl; [| reflexivity].
  destruct (py_mul amount rate); reflexivity.
Qed.

Lemma py_mul_raises amount v e :
  py_mul amount v = Raise e -> e = TypeError \/ e = OverflowError \/ e = MemoryError.
Proof.
  unfold py_mul, py_repeat. intros H.
  destruct amount as [n | x].
  - crunch; auto.
  - destruct (as_float v) eqn:E; simplify_eq.
    destruct (as_float_raises _ _ E); auto.
Qed.

(** [*] at a few operands, as Python evaluates it. *)
Example py_mul_examples :
  py_mul (NInt 3) (PInt (-4)) = Ok (PInt (-12))
  /\ py_mul (NInt 3) (PBool true) = Ok (PInt 3)
  /\ py_mul (NInt 0) (PFloat (SFopp (float_of_Z 3))) = Ok (PFloat (S754_zero true))
  /\ py_mul (float_of_Z 2) (PInt (10 ^ 400)) = Raise OverflowError
  /\ py_mul (float_of_Z 2) (PStr "ab") = Raise TypeError
  /\ py_mul (NInt 3) (PStr "ab") = Ok (PStr "ababab")
  /\ py_mul (NInt (-1)) (PList [PNone]) = Ok (PList [])
  /\ py_mul (NInt (2 ^ 63)) (PStr "") = Raise OverflowError
  /\ py_mul (NInt (2 ^ 62)) (PStr "ab") = Raise OverflowError
  /\ py_mul (NInt (2 ^ 62)) (PList [PNone; PNone; PNone]) = Raise MemoryError
  /\ py_mul (NInt 2) PNone = Raise TypeError.
Proof. repeat split; vm_compute; reflexivity. Qed.

Lemma py_getitem_raises v key e :
  py_getitem v key = Raise e -> e = TypeError \/ e = KeyError key.
Proof. unfold py_getitem. intros H. crunch; auto. Qed.

Lemma py_in_raises key v e : py_in key v = Raise e -> e = TypeError.
Proof. unfold py_in. intros H. crunch; auto. Qed.

(** C5. [convert_currency] fails with the unknown-currency error for
    [target] if and only if [get_exchange_rate] succeeds and [target] is
    not in the table it returns. *)
Theorem convert_currency_unknown_iff base target amount w :
  snd (convert_currency base target amount w) = Raise (UnknownCurrency target)
  <-> exists table,
        snd (get_exchange_rate base w) = Ok table /\ py_in target table = Ok false.
Proof.
  rewrite convert_currency_cases. simpl. unfold UnknownCurrency. split.
  - destruct (snd (get_exchange_rate base w)) as [table | e] eqn:Hg.
    + destruct (py_in target table) as [[|] | e] eqn:Hin.
      * destruct (py_getitem table target) as [rate | e] eqn:Hi.
        -- destruct (py_mul amount rate) as [x | e] eqn:Hm; [discriminate |].
           intros [= ->]. apply py_mul_raises in Hm as [? | [? | ?]]; discriminate.
        -- intros [= ->]. apply py_getitem_raises in Hi as [? | ?]; discriminate.
      * intros _. exists table. auto.
      * intros [= ->]. apply py_in_raises in Hin. discriminate.
    + intros [= ->]. apply get_exchange_rate_raises in Hg as [[e' ?] | [? | ?]]; discriminate.
  - intros (table & -> & ->). reflexivity.
Qed.

(** Whatever the table holds under [target], the outcome is that of the
    product [amount * rates[target]]. *)
Lemma convert_currency_any_rate base target amount w table v :
  snd (get_exchange_rate base w) = Ok (PDict table) ->
  table !! target = Some v ->
  snd (convert_currency base target amount w) = converted (py_mul amount v).
Proof.
  intros Hg Ht. rewrite convert_currency_cases, Hg. simpl. rewrite Ht. reflexivity.
Qed.

Lemma float_mul_zero_finite amount rate :
  is_zero amount = true -> is_finite rate = true ->
  is_zero (float_mul amount rate) = true.
Proof. destruct amount, rate; simpl; intros; try discriminate; reflexivity. Qed.

Lemma float_mul_finite_zero amount rate :
  is_finite amount = true -> is_zero rate = true ->
  is_zero (float_mul amount rate) = true.
Proof. destruct amount, rate; simpl; intros; try discriminate; reflexivity. Qed.

Lemma float_of_Z_0 : float_of_Z 0 = S754_zero false.
Proof. reflexivity. Qed.

(** On a number, [*] is the product of the two numbers. *)
Lemma py_mul_product amount rate r :
  rate_number rate = Some r -> py_mul amount rate = product amount r.
Proof.
  unfold rate_number, py_mul, product, number_float, as_float.
  destruct rate as [| b | n | x | | |]; intros [= <-]; destruct amount as [k | a];
    try reflexivity.
  - destruct b; reflexivity.
  - destruct (is_finite (float_of_Z k)); reflexivity.
Qed.

Lemma product_zero amount r :
  zero_number amount = true -> finite_number r = true ->
  exists zero, product amount r = Ok zero /\ zero_value zero = true.
Proof.
  unfold zero_number, finite_number, product, number_float, zero_value.
  destruct amount as [k | a], r as [n | x]; intros Hz Hf.
  - apply Z.eqb_eq in Hz as ->. eexists. split; reflexivity.
  - apply Z.eqb_eq in Hz as ->. rewrite float_of_Z_0. simpl.
    eexists. split; [reflexivity |]. apply float_mul_zero_finite; auto.
  - destruct (is_finite (float_of_Z n)) eqn:E; [| discriminate].
    eexists. split; [reflexivity |]. apply float_mul_zero_finite; auto.
  - eexists. split; [reflexivity |]. apply float_mul_zero_finite; auto.
Qed.

(** C4, as the code has it. When [target] is in the table
    [get_exchange_rate] returns, [convert_currency] leaves the world as
    that call left it and its outcome is that of Python's
    [amount * rates[target]], an exception of the product wrapped as a
    conversion error; the amount is not validated, negative and zero
    included. When the rate is a number this is the product of the two
    numbers: exact when both are ints, the binary64 product of their floats
    otherwise, and an [OverflowError] when an int among them is beyond the
    floats. A zero amount and a rate that is a finite number give a zero.
    With the rate 0.9 the amounts 100 and 100.0 convert to exactly 90.0. *)
Theorem convert_currency_product base target amount w table rate :
  snd (get_exchange_rate base w) = Ok (PDict table) ->
  table !! target = Some rate ->
  convert_currency base target amount w
  = (fst (get_exchange_rate base w), converted (py_mul amount rate))
  /\ (forall r, rate_number rate = Some r ->
      snd (convert_currency base target amount w) = converted (product amount r))
  /\ (forall r, rate_number rate = Some r ->
      zero_number amount = true -> finite_number r = true ->
      exists zero,
        snd (convert_currency base target amount w) = Ok zero
        /\ zero_value zero = true)
  /\ (rate = PFloat float_0_9 ->
      amount = NInt 100 \/ amount = NFloat (float_of_Z 100) ->
      snd (convert_currency base target amount w) = Ok (PFloat (float_of_Z 90))).
Proof.
  intros Hg Ht.
  assert (Hc : convert_currency base target amount w
               = (fst (get_exchange_rate base w), converted (py_mul amount rate))).
  { rewrite convert_currency_cases, Hg. simpl. rewrite Ht. reflexivity. }
  split; [exact Hc |]. rewrite Hc. simpl. split; [| split].
  - intros r Hr. rewrite (py_mul_product _ _ _ Hr). reflexivity.
  - intros r Hr Hz Hf. rewrite (py_mul_product _ _ _ Hr).
    destruct (product_zero amount r Hz Hf) as (zero & -> & Hzero). eauto.
  - intros -> [-> | ->]; vm_compute; reflexivity.
Qed.

(** ** The history series *)

Lemma get_historical_rates_cases base target days w :
  get_historical_rates base target days w =
    let w1 := fst (get_exchange_rate base w) in
    match snd (get_exchange_rate base w) with
    | Raise e => (fst (print e w1), Ok ([], []))
    | Ok table =>
        match py_in target table with
        | Raise e => (fst (print e w1), Ok ([], []))
        | Ok false => (w1, Ok ([], []))
        | Ok true =>
            match py_getitem table target with
            | Raise e => (fst (print e w1), Ok ([today w1], []))
            | Ok rate =>
                let loop :=
                  for_each (range 1 days) (history_step base target (today w1))
                    {| fw := w1; dates := [today w1]; rates := [rate] |} in
                (match snd loop with
                 | Ok _ => fw (fst loop)
                 | Raise e => fst (print e (fw (fst loop)))
                 end,
                 Ok (reverse (dates (fst loop)), reverse (rates (fst loop))))
            end
        end
    end.
Proof.
  unfold get_historical_rates, history_body, try_except, bind at 1, in_world at 1.
  simpl.
  destruct (get_exchange_rate base w) as [w1 [table | e]]; simpl; [| reflexivity].
  unfold bind at 1, eval at 1.
  destruct (py_in target table) as [[|] | e]; simpl; try reflexivity.
  unfold bind at 1, in_world at 1, datetime_now. simpl.
  unfold bind at 1, dates_append at 1. simpl.
  unfold bind at 1, eval at 1.
  destruct (py_getitem table target) as [rate | e]; simpl; [| reflexivity].
  unfold bind at 1, rates_append at 1. simpl.
  destruct (for_each (range 1 days) (history_step base target (today w1))
              {| fw := w1; dates := [today w1]; rates := [rate] |}) as [s2 [u | e]];
    reflexivity.
Qed.

Section Loop.

(** The loop runs for one currency pair and one day, the day of the call. *)
Variables base target : string.
Variable day : Z.

Lemma history_step_cases i s :
  let s' := fst (history_step base target day i s) in
  let r := snd (history_step base target day i s) in
  same_files (fw s) (fw s')
  /\ ((dates s' = dates s /\ rates s' = rates s)
      \/ (exists v, dates s' = dates s ++ [day - i] /\ rates s' = rates s ++ [v]
                    /\ r = Ok tt)
      \/ (dates s' = dates s ++ [day - i] /\ rates s' = rates s
          /\ exists f table e,
               historical (fw s) !! (base, day - i) = Some f
               /\ rates_field f = Some table
               /\ py_in target table = Ok true
               /\ py_getitem table target = Raise e)).
Proof.
  unfold history_step, days_before, same_files, rates_field, py_getitem.
  run. crunch; (split; [auto |]); eauto 10.
  all: right; right; split; [reflexivity |]; split; [reflexivity |].
  all: eexists _, _, _; split; [reflexivity |]; split; [eassumption |].
  all: split; [| reflexivity].
  all: simpl; repeat match goal with H : ?x = _ |- context [?x] => rewrite H end.
  all: reflexivity.
Qed.

Lemma series_ok_mono n n' s :
  n <= n' -> series_ok day n s -> series_ok day n' s.
Proof.
  intros Hle (Hh & Hs & Hf & Hl & Hr). repeat split; auto; [| lia].
  eapply Forall_impl; [exact Hf |]. simpl. intros d Hd. lia.
Qed.

Lemma series_ok_append n s s' :
  series_ok day n s ->
  dates s' = dates s ++ [day - n] ->
  (length (rates s') <= S (length (rates s)))%nat ->
  (length (rates s') <= S (length (dates s)))%nat ->
  series_ok day (n + 1) s'.
Proof.
  intros (Hh & Hs & Hf & Hl & Hr) Hd Hr1 Hr2. unfold series_ok. rewrite Hd.
  repeat split.
  - destruct (dates s); [discriminate | exact Hh].
  - rewrite reverse_snoc. apply StronglySorted_cons. split; [| exact Hs].
    apply Forall_reverse. eapply Forall_impl; [exact Hf |]. simpl. intros d H. lia.
  - apply Forall_app. split.
    + eapply Forall_impl; [exact Hf |]. simpl. intros d H. lia.
    + constructor; [lia | constructor].
  - rewrite length_app. simpl. lia.
  - rewrite length_app. simpl. lia.
Qed.

Lemma series_ok_step n s :
  series_ok day n s ->
  series_ok day (n + 1) (fst (history_step base target day n s)).
Proof.
  intros Hok.
  destruct (history_step_cases n s)
    as (_ & [(Hd & Hr) | [(v & Hd & Hr & _) | (Hd & Hr & _)]]).
  - apply (series_ok_mono n); [lia |].
    destruct Hok as (? & ? & ? & ? & ?). unfold series_ok. rewrite Hd, Hr. auto.
  - apply (series_ok_append n s); auto.
    + rewrite Hr, length_app. simpl. lia.
    + rewrite Hr, length_app. simpl. destruct Hok as (_ & _ & _ & _ & ?). lia.
  - apply (series_ok_append n s); auto.
    + rewrite Hr. lia.
    + rewrite Hr. destruct Hok as (_ & _ & _ & _ & ?). lia.
Qed.

Lemma for_each_series_ok (k : nat) : forall n s,
  series_ok day n s ->
  series_ok day (n + Z.of_nat k)
    (fst (for_each (seqZ n (Z.of_nat k)) (history_step base target day) s)).
Proof.
  induction k as [| k IH]; intros n s Hok.
  - simpl. apply (series_ok_mono n); [lia | exact Hok].
  - rewrite seqZ_cons by lia. simpl for_each. unfold bind.
    pose proof (series_ok_step n s Hok) as Hstep.
    destruct (history_step base target day n s) as [s' [u | e]]; simpl in Hstep.
    + replace (Z.pred (Z.of_nat (S k))) with (Z.of_nat k) by lia.
      replace (n + Z.of_nat (S k)) with (Z.succ n + Z.of_nat k) by lia.
      apply IH. replace (Z.succ n) with (n + 1) by lia. exact Hstep.
    + simpl. apply (series_ok_mono (n + 1)); [lia | exact Hstep].
Qed.

Lemma for_each_same_files l : forall s,
  same_files (fw s) (fw (fst (for_each l (history_step base target day) s))).
Proof.
  induction l as [| i l IH]; intros s.
  - simpl. unfold same_files. auto.
  - simpl for_each. unfold bind.
    destruct (history_step_cases i s) as (Hsame & _).
    destruct (history_step base target day i s) as [s' [u | e]]; simpl in Hsame.
    + specialize (IH s'). destruct Hsame as (? & ? & ? & ? & ?).
      destruct IH as (? & ? & ? & ? & ?). unfold same_files. repeat split; congruence.
    + exact Hsame.
Qed.

Lemma for_each_head_rates rate l : forall s,
  head (rates s) = Some rate ->
  head (rates (fst (for_each l (history_step base target day) s))) = Some rate.
Proof.
  induction l as [| i l IH]; intros s Hh.
  - exact Hh.
  - simpl for_each. unfold bind.
    assert (Hh' : head (rates (fst (history_step base target day i s))) = Some rate).
    { destruct (history_step_cases i s)
        as (_ & [(_ & Hr) | [(v & _ & Hr & _) | (_ & Hr & _)]]); rewrite Hr; auto.
      destruct (rates s); [discriminate | exact Hh]. }
    destruct (history_step base target day i s) as [s' [u | e]]; simpl in Hh'.
    + apply IH. exact Hh'.
    + exact Hh'.
Qed.

Lemma is_mapping_getitem table :
  is_mapping table -> py_in target table = Ok true ->
  exists rate, py_getitem table target = Ok rate.
Proof.
  intros [d ->]. simpl. destruct (d !! target) as [rate |]; [eauto | discriminate].
Qed.

Lemma history_step_paired i s :
  snapshots_are_mappings base (fw s) ->
  length (dates s) = length (rates s) ->
  length (dates (fst (history_step base target day i s)))
  = length (rates (fst (history_step base target day i s))).
Proof.
  intros Hsnap Hlen.
  destruct (history_step_cases i s)
    as (_ & [(Hd & Hr) | [(v & Hd & Hr & _) | (_ & _ & f & table & e & Hf & Ht & Hin & Hg)]]).
  - rewrite Hd, Hr. exact Hlen.
  - rewrite Hd, Hr, !length_app. simpl. lia.
  - destruct (is_mapping_getitem table (Hsnap _ _ _ Hf Ht) Hin) as [rate Hrate].
    congruence.
Qed.

Lemma for_each_paired l : forall s,
  snapshots_are_mappings base (fw s) ->
  length (dates s) = length (rates s) ->
  length (dates (fst (for_each l (history_step base target day) s)))
  = length (rates (fst (for_each l (history_step base target day) s))).
Proof.
  induction l as [| i l IH]; intros s Hsnap Hlen.
  - exact Hlen.
  - simpl for_each. unfold bind.
    pose proof (history_step_paired i s Hsnap Hlen) as Hp.
    destruct (history_step_cases i s) as ((_ & Hh & _) & _).
    destruct (history_step base target day i s) as [s' [u | e]]; simpl in Hp, Hh.
    + apply IH; [| exact Hp]. unfold snapshots_are_mappings in *. rewrite Hh. exact Hsnap.
    + exact Hp.
Qed.

End Loop.

(** [get_exchange_rate] touches no snapshot but the one of today. *)
Lemma get_exchange_rate_trace base w :
  exists evs,
    trace (fst (get_exchange_rate base w)) = evs ++ trace w
    /\ Forall (fun ev => ~ prior_snapshot_event (today w) ev) evs.
Proof.
  unfold get_exchange_rate, cached_rates, _cache_rates, _store_historical, py_setitem.
  run. crunch.
  all: simpl.
  all: lazymatch goal with
       | |- exists evs, ?t = evs ++ ?t0 /\ _ =>
           let p := prefix_of t t0 in exists p
       end.
  all: split; [reflexivity |].
  all: repeat constructor; simpl; intuition congruence.
Qed.

(** C2, as the code has it. When today's rate table cannot be obtained,
    [get_historical_rates] does not fail: it prints the error and returns
    two empty lists. *)
Theorem history_empty_when_rates_unavailable base target days w e :
  snd (get_exchange_rate base w) = Raise e ->
  get_historical_rates base target days w
  = (fst (print e (fst (get_exchange_rate base w))), Ok ([], [])).
Proof. intros Hg. rewrite get_historical_rates_cases, Hg. reflexivity. Qed.

(** C10. When today's table is obtained and [target] is not in it,
    [get_historical_rates] returns two empty lists, raises nothing, and does
    nothing beyond the call of [get_exchange_rate]: no snapshot of another
    day is tested, read or written. *)
Theorem history_empty_when_target_absent base target days w table :
  snd (get_exchange_rate base w) = Ok table ->
  py_in target table = Ok false ->
  get_historical_rates base target days w
  = (fst (get_exchange_rate base w), Ok ([], []))
  /\ exists evs,
       trace (fst (get_historical_rates base target days w)) = evs ++ trace w
       /\ Forall (fun ev => ~ prior_snapshot_event (today w) ev) evs.
Proof.
  intros Hg Hin.
  assert (H : get_historical_rates base target days w
              = (fst (get_exchange_rate base w), Ok ([], []))).
  { rewrite get_historical_rates_cases, Hg, Hin. reflexivity. }
  split; [exact H |]. rewrite H. simpl. apply get_exchange_rate_trace.
Qed.

Lemma series_ok_start day rate w :
  series_ok day 1 {| fw := w; dates := [day]; rates := [rate] |}.
Proof.
  unfold series_ok. simpl. repeat split.
  - repeat constructor.
  - repeat constructor. lia.
  - lia.
  - lia.
Qed.

(** C3, as the code has it. For [days >= 1] the two lists returned hold at
    most [days] points, and no point at all exactly when today's table
    cannot be obtained or does not hold [target]; the dates are in
    strictly ascending order and, when there is any, the last one is
    today; the rate of today, once read, is the last rate. *)
Theorem history_series_shape base target days w :
  1 <= days ->
  exists ds rs,
    snd (get_historical_rates base target days w) = Ok (ds, rs)
    /\ Z.of_nat (length ds) <= days
    /\ (length rs <= length ds)%nat
    /\ StronglySorted Z.lt ds
    /\ (ds <> [] -> last ds = Some (today w))
    /\ (ds <> [] <->
        exists table,
          snd (get_exchange_rate base w) = Ok table /\ py_in target table = Ok true)
    /\ (forall table rate,
          snd (get_exchange_rate base w) = Ok table ->
          py_in target table = Ok true ->
          py_getitem table target = Ok rate ->
          last rs = Some rate).
Proof.
  intros Hdays. rewrite get_historical_rates_cases. simpl.
  destruct (get_exchange_rate_clock base w) as (_ & _ & Htoday). simpl in Htoday.
  set (w1 := fst (get_exchange_rate base w)) in *.
  destruct (snd (get_exchange_rate base w)) as [table | e] eqn:Hg.
  2: { exists [], []. simpl. repeat split; try lia; try constructor; try congruence.
       intros (table & [=] & _). }
  destruct (py_in target table) as [[|] | e] eqn:Hin.
  2: { exists [], []. simpl. repeat split; try lia; try constructor; try congruence.
       intros (table' & [= <-] & Hin'). congruence. }
  2: { exists [], []. simpl. repeat split; try lia; try constructor; try congruence.
       intros (table' & [= <-] & Hin'). congruence. }
  destruct (py_getitem table target) as [rate | e] eqn:Hitem.
  2: { exists [today w1], []. simpl. repeat split; try lia.
       - repeat constructor.
       - rewrite Htoday. reflexivity.
       - eauto.
       - discriminate.
       - intros table' rate' [= <-]. congruence. }
  set (s1 := {| fw := w1; dates := [today w1]; rates := [rate] |}).
  pose proof (for_each_series_ok base target (today w1) (Z.to_nat (days - 1)) 1 s1
                (series_ok_start _ _ _)) as Hok.
  pose proof (for_each_head_rates base target (today w1) rate (range 1 days) s1 eq_refl)
    as Hrate.
  unfold range in *. rewrite Z2Nat.id in Hok by lia.
  replace (1 + (days - 1)) with days in Hok by lia.
  set (s2 := fst (for_each (seqZ 1 (days - 1)) (history_step base target (today w1)) s1))
    in *.
  destruct Hok as (Hh & Hs & _ & Hl & Hr).
  exists (reverse (dates s2)), (reverse (rates s2)). simpl.
  rewrite !length_reverse, !last_reverse.
  split; [reflexivity |]. split; [exact Hl |]. split; [exact Hr |].
  split; [exact Hs |]. split; [intros _; rewrite Hh, Htoday; reflexivity |].
  split.
  - split; [eauto |]. intros _ Hnil.
    apply (f_equal length) in Hnil. rewrite length_reverse in Hnil.
    destruct (dates s2); [discriminate Hh | discriminate Hnil].
  - intros table' rate' [= <-] _ Hitem'. rewrite Hrate. congruence.
Qed.

Lemma get_exchange_rate_mappings base w table :
  tables_are_mappings base w ->
  snd (get_exchange_rate base w) = Ok table ->
  is_mapping table /\ snapshots_are_mappings base (fst (get_exchange_rate base w)).
Proof.
  intros (Hcache & Hprov & Hsnap) Hg.
  destruct (get_exchange_rate_source base w table Hg)
    as [(m & e & Hc & Hm & He & Hh) | (body & Hp & Hb & Hh)].
  - split; [exact (Hcache _ _ _ Hc Hm He) |].
    unfold snapshots_are_mappings in *. rewrite Hh. exact Hsnap.
  - assert (Hmap : is_mapping table) by exact (Hprov _ _ Hp Hb).
    split; [exact Hmap |].
    unfold snapshots_are_mappings in *. rewrite Hh.
    destruct (historical w !! (base, today w)); [exact Hsnap |].
    intros day f table' Hf Ht.
    destruct (decide (day = today w)) as [-> | Hne].
    + rewrite lookup_insert_eq in Hf. injection Hf as <-. simpl in Ht.
      rewrite lookup_insert_ne in Ht by discriminate.
      rewrite lookup_insert_eq in Ht. injection Ht as <-. exact Hmap.
    + rewrite lookup_insert_ne in Hf by congruence. exact (Hsnap _ _ _ Hf Ht).
Qed.

(** C9, as the code has it. When every [rates] field held for [base] is
    a JSON object, the list of dates and the list of rates returned by
    [get_historical_rates] have the same length, whether or not the fetch
    succeeds. *)
Theorem history_lists_paired base target days w :
  tables_are_mappings base w ->
  exists ds rs,
    snd (get_historical_rates base target days w) = Ok (ds, rs)
    /\ length ds = length rs.
Proof.
  intros Htab. rewrite get_historical_rates_cases. simpl.
  destruct (snd (get_exchange_rate base w)) as [table | e] eqn:Hg;
    [| exists [], []; auto].
  destruct (get_exchange_rate_mappings base w table Htab Hg) as (Hmap & Hsnap).
  destruct (py_in target table) as [[|] | e] eqn:Hin;
    [| exists [], []; auto | exists [], []; auto].
  destruct (is_mapping_getitem target table Hmap Hin) as [rate ->].
  eexists _, _. split; [reflexivity |]. rewrite !length_reverse.
  apply for_each_paired; [exact Hsnap | reflexivity].
Qed.

(** ** A corrupted cache file *)

(** A cache file that does not decode is treated as no cache at all: the
    call has the same outcome and leaves the same snapshots. *)
Lemma undecodable_cache_as_absent base w :
  cache_file w = Some Malformed ->
  snd (get_exchange_rate base w) = snd (get_exchange_rate base (without_cache w))
  /\ historical (fst (get_exchange_rate base w))
     = historical (fst (get_exchange_rate base (without_cache w))).
Proof.
  intros Hc.
  unfold get_exchange_rate, cached_rates, _cache_rates, _store_historical, py_setitem,
    without_cache.
  run. rewrite Hc. simpl. crunch; auto.
Qed.

(** C7, where the code departs from it. A cache file that decodes to
    something other than the expected mapping is not treated as an empty
    cache: with the JSON text [[]] in the file the fetch succeeds and the
    call still fails, where it succeeds without a cache file; with
    [{"USD": 1}] the look-up itself raises. *)
Theorem corrupt_cache_surfaces :
  snd (get_exchange_rate "USD" cache_is_array) = Raise (ErrorFetching TypeError)
  /\ snd (get_exchange_rate "USD" cache_entry_is_number) = Raise TypeError
  /\ snd (get_exchange_rate "USD" (without_cache cache_is_array)) = Ok usd_table
  /\ snd (convert_currency "USD" "EUR" (float_of_Z 100) cache_is_array)
     = Raise (ConversionError (ErrorFetching TypeError)).
Proof. vm_compute. auto. Qed.

(** ** Witnesses and counterexamples *)




Lemma cache_rates_keeps_other_bases_witness :
  exists w' m',
    _cache_rates "EUR" usd_table cached_world = (w', Ok tt)
    /\ cache_mapping w' = Some m'
    /\ m' !! "EUR" = Some (entry (now cached_world) usd_table)
    /\ (forall other, other <> "EUR" ->
        m' !! other
        = ({["USD" := entry (float_of_Z 1699999000) eur_table]} : gmap string pyval)
            !! other)
    /\ historical w' = historical cached_world.
Proof.
  apply (cache_rates_keeps_other_bases "EUR" usd_table cached_world). reflexivity.
Defined.

Lemma store_historical_first_write_wins_witness :
  historical
    (later_writes "USD" [(noon, eur_table); (noon, PNone)]
       (fst (_store_historical "USD" usd_table fresh_install)))
    !! ("USD", this_day)
  = Some (Json (entry noon usd_table)).
Proof.
  destruct (store_historical_first_write_wins "USD" usd_table fresh_install)
    as (_ & _ & _ & _ & Hfirst).
  apply Hfirst. reflexivity.
Defined.

(** Not what C4 states: a zero amount, the float or the int, and the rate
    [1e999] convert to NaN, which is no zero. *)
Lemma convert_zero_infinite_rate :
  (exists table,
     snd (get_exchange_rate "USD" infinite_rate) = Ok (PDict table)
     /\ table !! "EUR" = Some (PFloat float_inf))
  /\ snd (convert_currency "USD" "EUR" (S754_zero false) infinite_rate)
     = Ok (PFloat S754_nan)
  /\ snd (convert_currency "USD" "EUR" (NInt 0) infinite_rate) = Ok (PFloat S754_nan)
  /\ float_eqb S754_nan (S754_zero false) = false.
Proof.
  split; [| repeat split; vm_compute; reflexivity].
  exists {["EUR" := PFloat float_inf]}.
  split; [vm_compute; reflexivity | apply lookup_singleton_eq].
Qed.

(** Nor does a finite rate suffice when it is an int beyond the floats: the
    float zero then converts to no value at all, while the int zero
    converts to the int zero. *)
Example convert_zero_huge_rate :
  snd (convert_currency "USD" "EUR" (S754_zero false) huge_rate)
  = Raise (ConversionError OverflowError)
  /\ snd (convert_currency "USD" "EUR" (NInt 0) huge_rate) = Ok (PInt 0).
Proof. split; vm_compute; reflexivity. Qed.

(** A float rate from the cache, and the int rate 1 that the provider
    gives USD in its own table. *)
Lemma convert_currency_product_witness :
  convert_currency "USD" "EUR" (NInt 100) cached_world
  = (fst (get_exchange_rate "USD" cached_world), Ok (PFloat (float_of_Z 90)))
  /\ snd (convert_currency "USD" "USD" (float_of_Z 100) fresh_install)
     = Ok (PFloat (float_of_Z 100))
  /\ snd (convert_currency "USD" "USD" (NInt (-3)) fresh_install) = Ok (PInt (-3)).
Proof.
  split; [| split].
  - destruct (convert_currency_product "USD" "EUR" (NInt 100) cached_world
                {["EUR" := PFloat float_0_9]} (PFloat float_0_9)) as (Hprod & _).
    + vm_compute. reflexivity.
    + apply lookup_singleton_eq.
    + rewrite Hprod. vm_compute. reflexivity.
  - destruct (convert_currency_product "USD" "USD" (float_of_Z 100) fresh_install
                (<["EUR" := PFloat float_0_9]> (<["USD" := PInt 1]> ∅)) (PInt 1))
      as (_ & Hnum & _).
    + vm_compute. reflexivity.
    + reflexivity.
    + rewrite (Hnum (NInt 1) eq_refl). vm_compute. reflexivity.
  - destruct (convert_currency_product "USD" "USD" (NInt (-3)) fresh_install
                (<["EUR" := PFloat float_0_9]> (<["USD" := PInt 1]> ∅)) (PInt 1))
      as (_ & Hnum & _).
    + vm_compute. reflexivity.
    + reflexivity.
    + rewrite (Hnum (NInt 1) eq_refl). reflexivity.
Defined.

(** Not what C2 states: the fetch fails and the call returns. *)
Lemma history_returns_when_offline :
  ~ ((exists e, snd (get_exchange_rate "USD" offline_install) = Raise e) ->
     exists e, snd (get_historical_rates "USD" "EUR" 7 offline_install) = Raise e).
Proof.
  intros H. destruct H as [e He].
  - eexists. vm_compute. reflexivity.
  - vm_compute in He. discriminate He.
Qed.

Lemma history_empty_when_rates_unavailable_witness :
  snd (get_historical_rates "USD" "EUR" 7 offline_install) = Ok ([], []).
Proof.
  rewrite (history_empty_when_rates_unavailable "USD" "EUR" 7 offline_install
             (ErrorFetching RequestException)).
  - reflexivity.
  - vm_compute. reflexivity.
Defined.

(** Not what C3 states: the series can be empty. *)
Lemma history_series_can_be_empty :
  exists ds rs,
    snd (get_historical_rates "USD" "EUR" 7 offline_install) = Ok (ds, rs)
    /\ ~ (1 <= length ds)%nat.
Proof. exists [], []. split; [vm_compute; reflexivity | simpl; lia]. Qed.

Lemma history_series_shape_witness :
  exists ds rs,
    snd (get_historical_rates "USD" "EUR" 7 three_snapshots) = Ok (ds, rs)
    /\ Z.of_nat (length ds) <= 7
    /\ (length rs <= length ds)%nat
    /\ StronglySorted Z.lt ds
    /\ (ds <> [] -> last ds = Some (today three_snapshots))
    /\ (ds <> [] <->
        exists table,
          snd (get_exchange_rate "USD" three_snapshots) = Ok table
          /\ py_in "EUR" table = Ok true)
    /\ (forall table rate,
          snd (get_exchange_rate "USD" three_snapshots) = Ok table ->
          py_in "EUR" table = Ok true ->
          py_getitem table "EUR" = Ok rate ->
          last rs = Some rate).
Proof. apply (history_series_shape "USD" "EUR" 7 three_snapshots). lia. Defined.

(** Three of the six earlier days have a snapshot: four points, oldest
    first. *)
Example history_three_snapshots :
  snd (get_historical_rates "USD" "EUR" 7 three_snapshots)
  = Ok ([this_day - 6; this_day - 3; this_day - 1; this_day],
        [PFloat float_0_9; PFloat float_0_9; PFloat float_0_9; PFloat float_0_9]).
Proof. vm_compute. reflexivity. Qed.

(** Not what C9 states: a date without its rate. *)
Lemma history_lists_can_differ :
  exists ds rs,
    snd (get_historical_rates "USD" "EUR" 7 list_of_codes) = Ok (ds, rs)
    /\ length ds <> length rs.
Proof. exists [this_day], []. split; [vm_compute; reflexivity | discriminate]. Qed.

Lemma history_empty_when_target_absent_witness :
  historical zzz_in_snapshots !! ("USD", this_day - 1)
  = Some (Json (entry noon (PDict {["ZZZ" := PFloat float_0_9]})))
  /\ snd (get_historical_rates "USD" "ZZZ" 7 zzz_in_snapshots) = Ok ([], []).
Proof.
  split; [reflexivity |].
  destruct (history_empty_when_target_absent "USD" "ZZZ" 7 zzz_in_snapshots usd_table)
    as [Hres _].
  - vm_compute. reflexivity.
  - vm_compute. reflexivity.
  - rewrite Hres. reflexivity.
Defined.

Lemma three_snapshots_mappings : tables_are_mappings "USD" three_snapshots.
Proof.
  split; [| split].
  - intros m e table Hc. discriminate Hc.
  - intros f table [= <-] [= <-]. eexists. reflexivity.
  - intros day f table Hf Ht. simpl in Hf.
    repeat (apply lookup_insert_Some in Hf as [[_ <-] | [_ Hf]];
            [injection Ht as <-; eexists; reflexivity |]).
    rewrite lookup_empty in Hf. discriminate Hf.
Defined.

Lemma history_lists_paired_witness :
  exists ds rs,
    snd (get_historical_rates "USD" "EUR" 7 three_snapshots) = Ok (ds, rs)
    /\ length ds = length rs.
Proof.
  apply (history_lists_paired "USD" "EUR" 7 three_snapshots three_snapshots_mappings).
Defined.

(** The unknown-currency error on a fresh install. *)
Example convert_unknown_zzz :
  snd (convert_currency "USD" "ZZZ" (float_of_Z 100) fresh_install)
  = Raise (UnknownCurrency "ZZZ").
Proof. vm_compute. reflexivity. Qed.

(** Two calls in a row on a fresh install: one GET, the second call is
    served from the cache file the first one wrote. *)
Example second_call_served_from_cache :
  let w1 := fst (get_exchange_rate "USD" fresh_install) in
  snd (get_exchange_rate "USD" w1) = Ok usd_table
  /\ trace (fst (get_exchange_rate "USD" w1))
     = [EvRead CacheFile; EvExists CacheFile;
        EvWrite (HistFile "USD" this_day); EvExists (HistFile "USD" this_day);
        EvWrite CacheFile; EvExists CacheFile; EvGet "USD"; EvExists CacheFile].
Proof. vm_compute. auto. Qed.

(** * Further properties *)
(** ** What [get_exchange_rate] returns, and what it leaves alone *)

(** X1. A table that [get_exchange_rate] returns is that of a fresh cache
    entry, returned without a GET and without a write, or else the
    provider's answer to a GET made because the cache holds no fresh entry:
    a stale entry is never returned. *)
Theorem get_exchange_rate_never_stale base w table :
  snd (get_exchange_rate base w) = Ok table ->
  (exists stamp,
     cache_entry base w stamp table /\ fresh w stamp
     /\ fst (get_exchange_rate base w)
        = logged [EvRead CacheFile; EvExists CacheFile] w)
  \/ (~ (exists stamp table', cache_entry base w stamp table' /\ fresh w stamp)
      /\ In (EvGet base) (trace (fst (get_exchange_rate base w)))
      /\ exists body,
           provider w base = Body (Json (PDict body)) /\ body !! "rates" = Some table).
Proof.
  unfold get_exchange_rate, cached_rates, _cache_rates, _store_historical, py_setitem,
    py_getitem, cache_entry, fresh, logged.
  run. intros H.
  crunch.
  all: simpl in *.
  all: simplify_eq.
  all: solve
    [ left; eexists; split; [eexists _, _, _; eauto 10 |];
      split; [eassumption | reflexivity]
    | right; split;
      [ intros (stamp & table' & (m & e & v & Hc & Hm & Hs & Ha & Hr) & Hf);
        simplify_eq; simpl in *; repeat case_match; simplify_eq; congruence
      | split; [simpl; tauto | eauto] ] ].
Qed.

Lemma get_exchange_rate_never_stale_witness :
  In (EvGet "USD") (trace (fst (get_exchange_rate "USD" fresh_install))).
Proof.
  destruct (get_exchange_rate_never_stale "USD" fresh_install usd_table eq_refl)
    as [(stamp & (m & e & v & Hc & _) & _) | (_ & H & _)].
  - discriminate Hc.
  - exact H.
Defined.

(** X2. [get_exchange_rate] changes a file only once the provider has
    answered. Either the cache file and the snapshots are those it found,
    whatever the outcome, or a GET was made, the provider answered with a
    [rates] table, and the cache file is the mapping it held (none for a
    missing or undecodable file) with the entry of [base] replaced by that
    table, stamped with the time of the call. In particular a stale entry
    stays in the cache when the fetch fails. *)
Theorem get_exchange_rate_writes_only_an_answer base w :
  let w' := fst (get_exchange_rate base w) in
  same_files w w'
  \/ (exists table m,
        provider_answers w base table
        /\ In (EvGet base) (trace w')
        /\ cache_mapping w = Some m
        /\ cache_file w' = Some (Json (PDict (<[base := entry (now w) table]> m)))).
Proof.
  unfold get_exchange_rate, cached_rates, _cache_rates, _store_historical, py_setitem,
    py_getitem, same_files, provider_answers, cache_mapping, entry.
  run.
  crunch; simpl in *; simplify_eq;
    solve [ left; auto
          | right; eexists _, _;
            split; [eexists; split; [first [eassumption | reflexivity] | eassumption] |];
            split; [simpl; tauto | split; reflexivity] ].
Qed.

(** The snapshots after [get_exchange_rate] are those before, with at most
    one more: the one of [base] for today, when there was none. *)
Lemma get_exchange_rate_snapshots base w :
  let h' := historical (fst (get_exchange_rate base w)) in
  h' = historical w
  \/ (historical w !! (base, today w) = None
      /\ exists f, h' = <[(base, today w) := f]> (historical w)).
Proof.
  unfold get_exchange_rate, cached_rates, _cache_rates, _store_historical, py_setitem.
  run. crunch; simpl in *; simplify_eq; eauto.
Qed.

Lemma get_historical_rates_same_files base target days w :
  same_files (fst (get_exchange_rate base w))
    (fst (get_historical_rates base target days w)).
Proof.
  rewrite get_historical_rates_cases. simpl.
  set (w1 := fst (get_exchange_rate base w)).
  assert (Hrefl : same_files w1 w1) by (unfold same_files; auto).
  assert (Hprint : forall e w0, same_files w1 w0 -> same_files w1 (fst (print e w0))).
  { intros e w0 H. exact H. }
  destruct (snd (get_exchange_rate base w)) as [table | e]; [| apply Hprint; exact Hrefl].
  destruct (py_in target table) as [[|] | e];
    [| exact Hrefl | apply Hprint; exact Hrefl].
  destruct (py_getitem table target) as [rate | e]; [| apply Hprint; exact Hrefl].
  pose proof (for_each_same_files base target (today w1) (range 1 days)
                {| fw := w1; dates := [today w1]; rates := [rate] |}) as Hloop.
  simpl in *.
  destruct (snd (for_each (range 1 days) (history_step base target (today w1))
                   {| fw := w1; dates := [today w1]; rates := [rate] |}));
    [exact Hloop | apply Hprint; exact Hloop].
Qed.

Lemma get_exchange_rate_keeps_snapshot base w key :
  key <> (base, today w) \/ is_Some (historical w !! key) ->
  historical (fst (get_exchange_rate base w)) !! key = historical w !! key.
Proof.
  intros Hkey.
  destruct (get_exchange_rate_snapshots base w) as [-> | (Hnone & f' & ->)];
    [reflexivity |].
  apply lookup_insert_ne. destruct Hkey as [Hne | [f Hf]]; congruence.
Qed.

(** X3. No call overwrites or removes a snapshot, and the only snapshot a call
    can add is the one of [base] for today: under any other key, and under
    that key when it already holds a snapshot, the snapshots read the same
    after [get_exchange_rate], after [convert_currency] and after
    [get_historical_rates] as before. *)
Theorem snapshots_are_never_overwritten base target amount days w key :
  key <> (base, today w) \/ is_Some (historical w !! key) ->
  historical (fst (get_exchange_rate base w)) !! key = historical w !! key
  /\ historical (fst (convert_currency base target amount w)) !! key
     = historical w !! key
  /\ historical (fst (get_historical_rates base target days w)) !! key
     = historical w !! key.
Proof.
  intros Hkey.
  pose proof (get_exchange_rate_keeps_snapshot base w key Hkey) as H1.
  split; [exact H1 |]. split.
  - rewrite convert_currency_cases. simpl. exact H1.
  - destruct (get_historical_rates_same_files base target days w) as (_ & -> & _).
    exact H1.
Qed.

Lemma snapshots_are_never_overwritten_witness :
  historical (fst (get_historical_rates "USD" "EUR" 7 three_snapshots))
    !! ("USD", this_day - 1)
  = Some (Json (entry noon usd_table)).
Proof.
  destruct (snapshots_are_never_overwritten "USD" "EUR" float_0_9 7 three_snapshots
              ("USD", this_day - 1)) as (_ & _ & H).
  - left. discriminate.
  - rewrite H. reflexivity.
Defined.

(** ** Conversion *)

(** X4. [convert_currency] leaves the world as the call of [get_exchange_rate]
    it makes leaves it, and every failure reaches the caller as a
    conversion error wrapping its cause. *)
Theorem convert_currency_wraps_every_failure base target amount w :
  fst (convert_currency base target amount w) = fst (get_exchange_rate base w)
  /\ (forall e,
        snd (convert_currency base target amount w) = Raise e ->
        exists cause, e = ConversionError cause)
  /\ (forall cause,
        snd (get_exchange_rate base w) = Raise cause ->
        snd (convert_currency base target amount w) = Raise (ConversionError cause)).
Proof.
  rewrite convert_currency_cases. simpl. split; [reflexivity |]. split.
  - intros e. unfold UnknownCurrency.
    destruct (snd (get_exchange_rate base w)) as [table | e0]; [| intros [= <-]; eauto].
    destruct (py_in target table) as [[|] | e0]; try (intros [= <-]; eauto).
    destruct (py_getitem table target) as [rate | e0]; [| intros [= <-]; eauto].
    destruct (py_mul amount rate) as [x | e0]; [discriminate | intros [= <-]; eauto].
  - intros cause ->. reflexivity.
Qed.

(** ** The cache entry, written and read back *)

Lemma entry_timestamp t table : py_getitem (entry t table) "timestamp" = Ok (PFloat t).
Proof. unfold entry. simpl. rewrite lookup_insert_eq. reflexivity. Qed.

Lemma entry_rates t table : py_getitem (entry t table) "rates" = Ok table.
Proof.
  unfold entry. simpl. rewrite lookup_insert_ne by discriminate.
  rewrite lookup_insert_eq. reflexivity.
Qed.

Lemma cache_entry_of_upsert base w t table m :
  cache_file w = Some (Json (PDict (<[base := entry t table]> m))) ->
  cache_entry base w t table.
Proof.
  intros Hc. unfold cache_entry, entry.
  eexists _, _, (PFloat t). split; [exact Hc |].
  split; [apply lookup_insert_eq |].
  split; [apply lookup_insert_eq |].
  split; [reflexivity |].
  rewrite lookup_insert_ne by discriminate. apply lookup_insert_eq.
Qed.

Lemma get_exchange_rate_hit base w stamp table :
  cache_entry base w stamp table -> fresh w stamp ->
  get_exchange_rate base w
  = (logged [EvRead CacheFile; EvExists CacheFile] w, Ok table).
Proof.
  intros He Hf. unfold get_exchange_rate, bind.
  rewrite (cached_rates_hit _ _ _ _ He Hf). reflexivity.
Qed.

(** A stale entry is passed over: the look-up that opens
    [get_exchange_rate] finds nothing to return. *)
Lemma cached_rates_stale base w stamp table :
  cache_entry base w stamp table ->
  float_ltb (float_sub (now w) stamp) (float_of_Z cache_timeout) = false ->
  cached_rates base w
  = (logged [EvRead CacheFile; EvExists CacheFile] w, Ok None).
Proof.
  intros (m & e & v & Hc & Hm & Hs & Ha & Hr) Hf.
  unfold cached_rates. run.
  rewrite Hc. simpl. rewrite Hm. simpl. rewrite Hs, Ha. simpl. rewrite Hf.
  unfold logged. rewrite Hc. reflexivity.
Qed.

(** X5. Round trip of the rolling cache. What [_cache_rates] writes for [base]
    is what the look-up of [get_exchange_rate] reads back at any later
    time [t'] with [t' - now < cache_timeout], and what it passes over
    once that difference is no longer below the timeout. *)
Theorem cache_write_then_read base table w m t' :
  cache_mapping w = Some m ->
  let w1 := at_time t' (fst (_cache_rates base table w)) in
  let within := float_ltb (float_sub t' (now w)) (float_of_Z cache_timeout) in
  cached_rates base w1
  = (logged [EvRead CacheFile; EvExists CacheFile] w1,
     Ok (if within then Some table else None)).
Proof.
  intros Hm w1 within.
  destruct (_cache_rates_files base table w m Hm) as (_ & Hc & _).
  assert (He : cache_entry base w1 (now w) table).
  { apply (cache_entry_of_upsert base w1 (now w) table m). exact Hc. }
  destruct within eqn:Hw.
  - apply (cached_rates_hit _ _ _ _ He). exact Hw.
  - apply (cached_rates_stale _ _ _ _ He). exact Hw.
Qed.

Lemma cache_write_then_read_witness :
  cached_rates "USD" (at_time noon (fst (_cache_rates "USD" usd_table fresh_install)))
  = (logged [EvRead CacheFile; EvExists CacheFile]
       (at_time noon (fst (_cache_rates "USD" usd_table fresh_install))),
     Ok (Some usd_table)).
Proof.
  rewrite (cache_write_then_read "USD" usd_table fresh_install ∅ noon); reflexivity.
Defined.

Lemma float_sub_diag x : is_finite x = true -> is_zero (float_sub x x) = true.
Proof.
  destruct x as [s | s | | s m e]; try discriminate; intros _.
  - destruct s; reflexivity.
  - unfold float_sub, SFsub. rewrite Z.sub_diag. reflexivity.
Qed.

Lemma fresh_at_once w : is_finite (now w) = true -> fresh w (now w).
Proof.
  intros Hfin. unfold fresh.
  pose proof (float_sub_diag (now w) Hfin) as Hz.
  destruct (float_sub (now w) (now w)); try discriminate. reflexivity.
Qed.

Lemma get_exchange_rate_leaves_entry base w table :
  snd (get_exchange_rate base w) = Ok table ->
  let w1 := fst (get_exchange_rate base w) in
  (exists stamp, cache_entry base w1 stamp table /\ fresh w1 stamp)
  \/ cache_entry base w1 (now w) table.
Proof.
  unfold get_exchange_rate, cached_rates, _cache_rates, _store_historical, py_setitem,
    py_getitem.
  run. intros Hg.
  crunch; simpl in *; simplify_eq.
  all: first
    [ right; eapply cache_entry_of_upsert; reflexivity
    | left; eexists; split;
      [ unfold cache_entry; eexists _, _, _; simpl; eauto 10
      | unfold fresh; simpl; eassumption ] ].
Qed.

(** X6. A call that succeeds leaves a cache entry for [base] holding the table
    it returned. Called again at once, or at any later time at which that
    entry is still fresh, [get_exchange_rate] returns the same table from
    the cache: no GET, no write. *)
Theorem second_call_is_served_from_cache base w table :
  snd (get_exchange_rate base w) = Ok table ->
  let w1 := fst (get_exchange_rate base w) in
  exists stamp,
    cache_entry base w1 stamp table
    /\ (is_finite (now w) = true -> fresh w1 stamp)
    /\ (forall t',
          fresh (at_time t' w1) stamp ->
          get_exchange_rate base (at_time t' w1)
          = (logged [EvRead CacheFile; EvExists CacheFile] (at_time t' w1), Ok table)).
Proof.
  intros Hg w1.
  destruct (get_exchange_rate_clock base w) as (_ & Hnow & _). fold w1 in Hnow.
  assert (Hagain : forall stamp t',
            cache_entry base w1 stamp table ->
            fresh (at_time t' w1) stamp ->
            get_exchange_rate base (at_time t' w1)
            = (logged [EvRead CacheFile; EvExists CacheFile] (at_time t' w1), Ok table)).
  { intros stamp t' He Hf. apply (get_exchange_rate_hit _ _ stamp); [| exact Hf].
    destruct He as (m & e & v & H). exists m, e, v. exact H. }
  destruct (get_exchange_rate_leaves_entry base w table Hg) as [(stamp & He & Hf) | He];
    fold w1 in He.
  - exists stamp. split; [exact He |]. split; [intros _; exact Hf |].
    intros t'. apply Hagain. exact He.
  - exists (now w). split; [exact He |]. split.
    + intros Hfin. unfold fresh. rewrite Hnow. apply fresh_at_once. exact Hfin.
    + intros t'. apply Hagain. exact He.
Qed.

Lemma second_call_is_served_from_cache_witness :
  get_exchange_rate "USD" (fst (get_exchange_rate "USD" fresh_install))
  = (logged [EvRead CacheFile; EvExists CacheFile]
       (fst (get_exchange_rate "USD" fresh_install)), Ok usd_table).
Proof.
  destruct (second_call_is_served_from_cache "USD" fresh_install usd_table)
    as (stamp & _ & Hfresh & Hagain).
  - vm_compute. reflexivity.
  - apply (Hagain noon). apply Hfresh. reflexivity.
Defined.

(** ** The history series, point by point *)

Section Series.

Variables base target : string.
Variable day : Z.

Lemma history_step_adds i s :
  let s' := fst (history_step base target day i s) in
  dates s' = dates s
  \/ (dates s' = dates s ++ [day - i]
      /\ 1 <= day - i
      /\ holds_target (historical (fw s)) base target (day - i)).
Proof.
  unfold history_step, days_before, holds_target, rates_field, py_getitem.
  run. crunch; simpl in *; simplify_eq; auto.
  all: right; split; [reflexivity |]; split; [lia |].
  all: eexists _, _; split; [reflexivity |]; split; [eassumption |].
  all: simpl; repeat match goal with H : ?x = _ |- context [?x] => rewrite H end.
  all: reflexivity.
Qed.

Lemma history_step_raises i s f :
  historical (fw s) !! (base, day - i) = Some f ->
  rates_field f = None ->
  dates (fst (history_step base target day i s)) = dates s
  /\ exists e, snd (history_step base target day i s) = Raise e.
Proof.
  unfold history_step, days_before, rates_field, py_getitem.
  run. intros Hf Hr. crunch; simpl in *; simplify_eq; eauto.
Qed.

Lemma history_step_readable i s :
  (forall f, historical (fw s) !! (base, day - i) = Some f -> readable_snapshot f) ->
  i <= 999999999 -> 1 <= day - i ->
  let found := snapshot_rate (historical (fw s)) base target (day - i) in
  exists s',
    history_step base target day i s = (s', Ok tt)
    /\ same_files (fw s) (fw s')
    /\ dates s' = dates s ++ (match found with Some _ => [day - i] | None => [] end)
    /\ rates s' = rates s ++ (match found with Some v => [v] | None => [] end).
Proof.
  unfold history_step, days_before, snapshot_rate, readable_snapshot, py_getitem, py_in,
    same_files.
  intros Hread Hi Hd.
  assert (H1 : (999999999 <? i) = false) by lia.
  assert (H2 : (day - i <? 1) = false) by lia.
  destruct (historical (fw s) !! (base, day - i)) as [f |] eqn:Hf.
  - destruct (Hread f eq_refl) as (data & table & -> & Hrates).
    destruct (table !! target) as [v |] eqn:Hv.
    + run. rewrite H1, H2. simpl. repeat (rewrite ?Hf, ?Hrates, ?Hv; simpl).
      eexists. split; [reflexivity |]. simpl. repeat split.
    + run. rewrite H1, H2. simpl. repeat (rewrite ?Hf, ?Hrates, ?Hv; simpl).
      eexists. split; [reflexivity |]. simpl. rewrite !app_nil_r. repeat split.
  - run. rewrite H1, H2. simpl. repeat (rewrite ?Hf; simpl).
    eexists. split; [reflexivity |]. simpl. rewrite !app_nil_r. repeat split.
Qed.

Variable h : gmap (string * Z) file.

Lemma for_each_sound (k : nat) : forall n s,
  1 <= n ->
  historical (fw s) = h ->
  Forall (fun d => d = day \/ (day - n < d < day /\ holds_target h base target d))
    (dates s) ->
  Forall (fun d => d = day
                   \/ (day - (n + Z.of_nat k) < d < day /\ holds_target h base target d))
    (dates (fst (for_each (seqZ n (Z.of_nat k)) (history_step base target day) s))).
Proof.
  induction k as [| k IH]; intros n s Hn Hh Hall.
  - simpl. eapply Forall_impl; [exact Hall |]. simpl. intros d [-> | [Hd Ht]]; auto.
    right. split; [lia | exact Ht].
  - rewrite seqZ_cons by lia. simpl for_each. unfold bind.
    pose proof (history_step_adds n s) as Hadd.
    destruct (history_step_cases base target day n s) as ((_ & Hh' & _) & _).
    assert (Hstep : Forall (fun d => d = day
                      \/ (day - (n + 1) < d < day /\ holds_target h base target d))
                      (dates (fst (history_step base target day n s)))).
    { simpl in Hadd. destruct Hadd as [-> | (-> & Hd & Ht)].
      - eapply Forall_impl; [exact Hall |]. simpl. intros d [-> | [Hd Ht]]; auto.
        right. split; [lia | exact Ht].
      - apply Forall_app. split.
        + eapply Forall_impl; [exact Hall |]. simpl. intros d [-> | [Hd' Ht']]; auto.
          right. split; [lia | exact Ht'].
        + constructor; [| constructor]. right. split; [lia |]. rewrite <- Hh. exact Ht. }
    destruct (history_step base target day n s) as [s' [u | e]]; simpl in Hstep, Hh'.
    + replace (Z.pred (Z.of_nat (S k))) with (Z.of_nat k) by lia.
      replace (n + Z.of_nat (S k)) with (Z.succ n + Z.of_nat k) by lia.
      apply IH; [lia | congruence |].
      replace (Z.succ n) with (n + 1) by lia. exact Hstep.
    + simpl. eapply Forall_impl; [exact Hstep |]. simpl.
      intros d [-> | [Hd Ht]]; auto. right. split; [lia | exact Ht].
Qed.

Lemma for_each_stops i f (k : nat) : forall n s,
  h !! (base, day - i) = Some f ->
  rates_field f = None ->
  n <= i < n + Z.of_nat k ->
  historical (fw s) = h ->
  series_ok day n s ->
  series_ok day i
    (fst (for_each (seqZ n (Z.of_nat k)) (history_step base target day) s)).
Proof.
  induction k as [| k IH]; intros n s Hf Hr Hi Hh Hok; [lia |].
  rewrite seqZ_cons by lia. simpl for_each. unfold bind.
  destruct (decide (n = i)) as [-> | Hne].
  - rewrite <- Hh in Hf.
    destruct (history_step_raises i s f Hf Hr) as (Hd & e & He).
    destruct (history_step_cases base target day i s)
      as (_ & [(_ & Hrs) | [(v & _ & _ & Hok') | (Habs & _)]]).
    + destruct (history_step base target day i s) as [s' r]. simpl in *. subst r.
      simpl. destruct Hok as (? & ? & ? & ? & ?). unfold series_ok.
      rewrite Hd, Hrs. auto.
    + rewrite He in Hok'. discriminate.
    + rewrite Hd in Habs. apply (f_equal length) in Habs.
      rewrite length_app in Habs. simpl in Habs. lia.
  - pose proof (series_ok_step base target day n s Hok) as Hstep.
    destruct (history_step_cases base target day n s) as ((_ & Hh' & _) & _).
    destruct (history_step base target day n s) as [s' [u | e]]; simpl in Hstep, Hh'.
    + replace (Z.pred (Z.of_nat (S k))) with (Z.of_nat k) by lia.
      apply IH; [exact Hf | exact Hr | lia | congruence |].
      replace (Z.succ n) with (n + 1) by lia. exact Hstep.
    + simpl. apply (series_ok_mono day (n + 1)); [lia | exact Hstep].
Qed.

Lemma for_each_readable l : forall s,
  (forall i, i ∈ l ->
     (forall f, h !! (base, day - i) = Some f -> readable_snapshot f)
     /\ i <= 999999999 /\ 1 <= day - i) ->
  historical (fw s) = h ->
  let points :=
    omap (fun i => pair (day - i) <$> snapshot_rate h base target (day - i)) l in
  exists s',
    for_each l (history_step base target day) s = (s', Ok tt)
    /\ same_files (fw s) (fw s')
    /\ dates s' = dates s ++ points.*1
    /\ rates s' = rates s ++ points.*2.
Proof.
  induction l as [| i l IH]; intros s Hl Hh; cbv zeta in *; simpl.
  - exists s. rewrite !app_nil_r. unfold same_files. repeat split.
  - destruct (Hl i) as (Hread & Hi & Hd); [left |].
    rewrite <- Hh in Hread.
    destruct (history_step_readable i s Hread Hi Hd)
      as (s1 & Hs1 & Hsame & Hd1 & Hr1).
    destruct (IH s1) as (s2 & Hs2 & Hsame2 & Hd2 & Hr2).
    { intros j Hj. apply Hl. right. exact Hj. }
    { destruct Hsame as (_ & -> & _). exact Hh. }
    exists s2. unfold bind. rewrite Hs1. split; [exact Hs2 |]. split.
    { destruct Hsame as (? & ? & ? & ? & ?). destruct Hsame2 as (? & ? & ? & ? & ?).
      unfold same_files. repeat split; congruence. }
    rewrite Hd2, Hr2, Hd1, Hr1, Hh.
    destruct (snapshot_rate h base target (day - i)); simpl;
      rewrite <- !app_assoc; auto.
Qed.

End Series.

Lemma earlier_points_ext h h' base target day days :
  (forall i, 1 <= i < days -> h' !! (base, day - i) = h !! (base, day - i)) ->
  earlier_points h' base target day days = earlier_points h base target day days.
Proof.
  intros Hext. unfold earlier_points.
  assert (H : forall l : list Z,
            Forall (fun i => 1 <= i < days) l ->
            omap (fun i => pair (day - i) <$> snapshot_rate h' base target (day - i)) l
            = omap (fun i => pair (day - i) <$> snapshot_rate h base target (day - i)) l).
  { induction l as [| i l IH]; intros Hl; [reflexivity |].
    inversion Hl as [| ? ? Hi Hl']; subst.
    cbn [omap list_omap]. fold (@omap list _).
    assert (Hs : snapshot_rate h' base target (day - i)
                 = snapshot_rate h base target (day - i)).
    { unfold snapshot_rate. rewrite (Hext i Hi). reflexivity. }
    rewrite Hs. specialize (IH Hl').
    destruct (pair (day - i) <$> snapshot_rate h base target (day - i));
      [f_equal |]; exact IH. }
  apply H. apply Forall_forall. intros i Hi. apply elem_of_seqZ in Hi. lia.
Qed.

Lemma history_loop_world base w i :
  1 <= i ->
  historical (fst (get_exchange_rate base w)) !! (base, today w - i)
  = historical w !! (base, today w - i).
Proof.
  intros Hi. apply get_exchange_rate_keeps_snapshot.
  left. intros [= Heq]. lia.
Qed.

(** X7. Every date the series holds, other than today, is a day among the
    [days - 1] before today whose snapshot of [base] has a [rates] field in
    which [target] is found: no date is invented, none lies outside the
    window. *)
Theorem history_dates_are_backed base target days w ds rs :
  snd (get_historical_rates base target days w) = Ok (ds, rs) ->
  forall d, d ∈ ds ->
    d = today w
    \/ (today w - days < d < today w /\ holds_target (historical w) base target d).
Proof.
  rewrite get_historical_rates_cases. simpl.
  destruct (get_exchange_rate_clock base w) as (_ & _ & Htoday). simpl in Htoday.
  set (w1 := fst (get_exchange_rate base w)) in *.
  assert (Hnil : forall d : Z, d ∈ @nil Z -> d = today w
            \/ (today w - days < d < today w
                /\ holds_target (historical w) base target d)).
  { intros d Hd. inversion Hd. }
  destruct (snd (get_exchange_rate base w)) as [table | e]; [| intros [= <- <-]; exact Hnil].
  destruct (py_in target table) as [[|] | e]; try (intros [= <- <-]; exact Hnil).
  destruct (py_getitem table target) as [rate | e].
  2: { intros [= <- <-] d Hd. apply list_elem_of_singleton in Hd. left. congruence. }
  intros [= <- <-] d Hd. rewrite elem_of_reverse in Hd. revert d Hd. apply Forall_forall.
  set (s1 := {| fw := w1; dates := [today w1]; rates := [rate] |}).
  unfold range.
  assert (Hs1 : Forall (fun d => d = today w1
                   \/ (today w1 - 1 < d < today w1
                       /\ holds_target (historical w1) base target d)) (dates s1)).
  { repeat constructor. }
  pose proof (for_each_sound base target (today w1) (historical w1)
                (Z.to_nat (days - 1)) 1 s1 ltac:(lia) eq_refl Hs1) as Hall.
  replace (Z.of_nat (Z.to_nat (days - 1))) with (Z.max 0 (days - 1)) in Hall by lia.
  assert (Hseq : seqZ 1 (Z.max 0 (days - 1)) = seqZ 1 (days - 1)).
  { destruct (decide (0 <= days - 1)); [f_equal; lia |].
    rewrite !seqZ_nil by lia. reflexivity. }
  rewrite Hseq in Hall.
  eapply Forall_impl; [exact Hall |]. simpl. rewrite Htoday.
  intros d [-> | [Hd (f & table' & Hf & Ht & Hin)]]; [left; reflexivity |].
  right. split; [lia |]. exists f, table'. split; [| auto].
  replace d with (today w - (today w - d)) in Hf |- * by lia.
  rewrite <- (history_loop_world base w (today w - d)) by lia. exact Hf.
Qed.

(** X8. An unreadable snapshot ends the walk back in time. When the snapshot
    of a day of the window does not decode, is no object or has no [rates]
    field, the series holds no date as old as that day, whatever older
    snapshots exist. *)
Theorem history_stops_at_unreadable_snapshot base target days w i f ds rs :
  1 <= i < days ->
  historical w !! (base, today w - i) = Some f ->
  rates_field f = None ->
  snd (get_historical_rates base target days w) = Ok (ds, rs) ->
  forall d, d ∈ ds -> today w - i < d.
Proof.
  intros Hi Hf Hr. rewrite get_historical_rates_cases. simpl.
  destruct (get_exchange_rate_clock base w) as (_ & _ & Htoday). simpl in Htoday.
  set (w1 := fst (get_exchange_rate base w)) in *.
  destruct (snd (get_exchange_rate base w)) as [table | e];
    [| intros [= <- <-] d Hd; inversion Hd].
  destruct (py_in target table) as [[|] | e];
    try (intros [= <- <-] d Hd; inversion Hd).
  destruct (py_getitem table target) as [rate | e].
  2: { intros [= <- <-] d Hd. apply list_elem_of_singleton in Hd. lia. }
  intros [= <- <-] d Hd. rewrite elem_of_reverse in Hd. revert d Hd. apply Forall_forall.
  set (s1 := {| fw := w1; dates := [today w1]; rates := [rate] |}).
  unfold range.
  assert (Hf1 : historical w1 !! (base, today w1 - i) = Some f).
  { rewrite Htoday. subst w1. rewrite history_loop_world by lia. exact Hf. }
  pose proof (for_each_stops base target (today w1) (historical w1) i f
                (Z.to_nat (days - 1)) 1 s1 Hf1 Hr ltac:(lia) eq_refl
                (series_ok_start _ _ _)) as Hok.
  rewrite Z2Nat.id in Hok by lia.
  destruct Hok as (_ & _ & Hall & _). rewrite <- Htoday. exact Hall.
Qed.

(** X9. The series, exactly. When today's table holds a rate for [target] and
    every snapshot of the window is readable, the dates returned are, oldest
    first, the days among the [days - 1] before today whose snapshot has a
    rate for [target], then today; the rates returned are the rates of
    these snapshots, in the same order, then today's rate. For [days <= 1]
    that is today's point alone. *)
Theorem history_series_exact base target days w table rate :
  snd (get_exchange_rate base w) = Ok table ->
  py_in target table = Ok true ->
  py_getitem table target = Ok rate ->
  (forall i f,
     1 <= i < days -> historical w !! (base, today w - i) = Some f ->
     readable_snapshot f) ->
  days <= today w ->
  days <= 1000000000 ->
  let points := earlier_points (historical w) base target (today w) days in
  snd (get_historical_rates base target days w)
  = Ok (reverse (today w :: points.*1), reverse (rate :: points.*2)).
Proof.
  intros Hg Hin Hitem Hread Hlow Hhigh points.
  rewrite get_historical_rates_cases. simpl. rewrite Hg, Hin, Hitem.
  destruct (get_exchange_rate_clock base w) as (_ & _ & Htoday). simpl in Htoday.
  set (w1 := fst (get_exchange_rate base w)) in *.
  set (s1 := {| fw := w1; dates := [today w1]; rates := [rate] |}).
  destruct (for_each_readable base target (today w1) (historical w1) (range 1 days) s1)
    as (s2 & Hs2 & _ & Hd & Hr).
  { intros i Hi. unfold range in Hi. apply elem_of_seqZ in Hi. rewrite Htoday.
    split; [| lia]. intros f Hf. apply (Hread i f); [lia |].
    subst w1. rewrite history_loop_world in Hf by lia. exact Hf. }
  { reflexivity. }
  assert (Hpts : earlier_points (historical w1) base target (today w1) days = points).
  { rewrite Htoday. apply earlier_points_ext.
    intros i Hi. subst w1. apply history_loop_world. lia. }
  unfold earlier_points in Hpts. unfold range in Hd, Hr. rewrite Hpts in Hd, Hr.
  rewrite Hs2. simpl. rewrite Hd, Hr. simpl. rewrite Htoday. reflexivity.
Qed.

Lemma three_snapshots_readable i f :
  historical three_snapshots !! ("USD", today three_snapshots - i) = Some f ->
  readable_snapshot f.
Proof.
  simpl. intros Hf.
  repeat (apply lookup_insert_Some in Hf as [[_ <-] | [_ Hf]];
          [eexists _, _; split; [reflexivity |];
           rewrite lookup_insert_ne by discriminate; apply lookup_insert_eq |]).
  rewrite lookup_empty in Hf. discriminate Hf.
Defined.

Lemma history_series_exact_witness :
  snd (get_historical_rates "USD" "EUR" 7 three_snapshots)
  = Ok ([this_day - 6; this_day - 3; this_day - 1; this_day],
        [PFloat float_0_9; PFloat float_0_9; PFloat float_0_9; PFloat float_0_9]).
Proof.
  rewrite (history_series_exact "USD" "EUR" 7 three_snapshots usd_table (PFloat float_0_9)).
  - vm_compute. reflexivity.
  - vm_compute. reflexivity.
  - reflexivity.
  - reflexivity.
  - intros i f _. apply three_snapshots_readable.
  - vm_compute. discriminate.
  - vm_compute. discriminate.
Defined.

Lemma history_dates_are_backed_witness :
  snd (get_historical_rates "USD" "EUR" 7 three_snapshots)
  = Ok ([this_day - 6; this_day - 3; this_day - 1; this_day],
        [PFloat float_0_9; PFloat float_0_9; PFloat float_0_9; PFloat float_0_9])
  /\ forall d, d ∈ [this_day - 6; this_day - 3; this_day - 1; this_day] ->
       d = this_day
       \/ (this_day - 7 < d < this_day
           /\ holds_target (historical three_snapshots) "USD" "EUR" d).
Proof.
  split; [vm_compute; reflexivity |].
  apply (history_dates_are_backed "USD" "EUR" 7 three_snapshots _
           [PFloat float_0_9; PFloat float_0_9; PFloat float_0_9; PFloat float_0_9]).
  vm_compute. reflexivity.
Defined.

(** The snapshot of two days ago does not decode; the one of three days
    ago is in order. *)
Lemma history_stops_at_unreadable_snapshot_witness :
  let w := with_snapshots
             (<[("USD", this_day - 2) := Malformed]> (historical three_snapshots))
             three_snapshots in
  snd (get_historical_rates "USD" "EUR" 7 w)
  = Ok ([this_day - 1; this_day], [PFloat float_0_9; PFloat float_0_9])
  /\ forall d, d ∈ [this_day - 1; this_day] -> this_day - 2 < d.
Proof.
  intros w. split; [vm_compute; reflexivity |].
  apply (history_stops_at_unreadable_snapshot "USD" "EUR" 7 w 2 Malformed _
           [PFloat float_0_9; PFloat float_0_9]).
  - lia.
  - reflexivity.
  - reflexivity.
  - vm_compute. reflexivity.
Defined.

(** ** The list of currencies *)

Lemma string_compare_trans_le a : forall b c,
  String.compare a b <> Gt -> String.compare b c <> Gt -> String.compare a c <> Gt.
Proof.
  induction a as [| x a IH]; intros [| y b] [| z c]; simpl; try congruence.
  unfold Ascii.compare.
  destruct (N.compare_spec (Ascii.N_of_ascii x) (Ascii.N_of_ascii y)) as [Hxy | Hxy | Hxy];
    destruct (N.compare_spec (Ascii.N_of_ascii y) (Ascii.N_of_ascii z)) as [Hyz | Hyz | Hyz];
    try congruence; intros H1 H2.
  - rewrite Hxy, Hyz, N.compare_refl. eauto.
  - rewrite Hxy. apply N.compare_lt_iff in Hyz. rewrite Hyz. discriminate.
  - rewrite <- Hyz. apply N.compare_lt_iff in Hxy. rewrite Hxy. discriminate.
  - assert (Hxz : (Ascii.N_of_ascii x < Ascii.N_of_ascii z)%N) by lia.
    apply N.compare_lt_iff in Hxz. rewrite Hxz. discriminate.
Qed.

#[global] Instance str_le_trans : Transitive str_le.
Proof.
  intros a b c. unfold str_le, String.leb. intros Hab Hbc.
  pose proof (string_compare_trans_le a b c) as H.
  destruct (String.compare a b); try discriminate;
    destruct (String.compare b c); try discriminate;
    destruct (String.compare a c); try reflexivity; exfalso; apply H; congruence.
Qed.

#[global] Instance str_le_total : Total str_le.
Proof. intros a b. apply String.leb_total. Qed.

#[global] Instance str_le_antisym : AntiSymm (=) str_le.
Proof. intros a b. apply String.leb_antisym. Qed.

Lemma sorted_keys_sorted (d : gmap string pyval) :
  StronglySorted str_le (merge_sort str_le (fst <$> map_to_list d)).
Proof. apply StronglySorted_merge_sort; apply _. Qed.

Lemma sorted_keys_elem (d : gmap string pyval) c :
  c ∈ merge_sort str_le (fst <$> map_to_list d) <-> is_Some (d !! c).
Proof.
  rewrite merge_sort_Permutation, list_elem_of_fmap. split.
  - intros ([k v] & -> & Hkv). apply elem_of_map_to_list in Hkv. eauto.
  - intros [v Hv]. exists (c, v). split; [reflexivity |].
    apply elem_of_map_to_list. exact Hv.
Qed.

Lemma sorted_keys_NoDup (d : gmap string pyval) :
  NoDup (merge_sort str_le (fst <$> map_to_list d)).
Proof. rewrite merge_sort_Permutation. apply NoDup_fst_map_to_list. Qed.

(** Unfold the second monad down to matches. *)
Ltac run_load :=
  cbv beta iota zeta delta
    [l_bind l_ret l_eval on_world builtin set_available_currencies set_currencies
     get_available_currencies dump_currencies time_time] in *;
  simpl in *.

Lemma load_currencies_body_result s :
  let s' := fst (load_currencies_body s) in
  printed s' = printed s
  /\ match snd (load_currencies_body s) with
     | inl _ =>
         exists d,
           available_currencies s' = PDict d
           /\ currencies s' = merge_sort str_le (fst <$> map_to_list d)
     | inr _ => currencies_file s' = currencies_file s
     end.
Proof.
  unfold load_currencies_body, cached_currencies, py_get, sorted_keys, codes_of_keys,
    requests_get_json.
  run_load. run.
  crunch; simpl in *; simplify_eq; split; eauto.
Qed.

Lemma codes_of_list_lookup (l : list string) c :
  is_Some ((list_to_map ((fun code => (code, PStr code)) <$> l) : gmap string pyval) !! c)
  <-> c ∈ l.
Proof.
  assert (Hfst : ((fun code : string => (code, PStr code)) <$> l).*1 = l).
  { rewrite <- list_fmap_compose. apply list_fmap_id. }
  split.
  - intros Hsome. destruct (decide (c ∈ l)) as [Hin | Hnot]; [exact Hin |].
    rewrite <- Hfst in Hnot. apply not_elem_of_list_to_map_1 in Hnot.
    rewrite Hnot in Hsome. destruct Hsome as [x Hx]. discriminate.
  - intros Hin.
    destruct (list_to_map ((fun code => (code, PStr code)) <$> l) !! c) as [x |] eqn:E;
      [eauto |].
    apply not_elem_of_list_to_map in E. exfalso. apply E. rewrite Hfst. exact Hin.
Qed.

Lemma default_currencies_NoDup : NoDup default_currencies.
Proof. apply (bool_decide_unpack _). vm_compute. exact I. Qed.

(** X10. Whatever it finds in the file and whatever the provider answers,
    [load_currencies] leaves the converter with a dict of available
    currencies and a list of codes that holds exactly the keys of that
    dict, each once. *)
Theorem load_currencies_list_matches_dict s :
  exists d,
    available_currencies (load_currencies s) = PDict d
    /\ NoDup (currencies (load_currencies s))
    /\ forall code, code ∈ currencies (load_currencies s) <-> is_Some (d !! code).
Proof.
  unfold load_currencies.
  destruct (load_currencies_body_result s) as (_ & H).
  destruct (load_currencies_body s) as [s' [u | e]]; simpl in *.
  - destruct H as (d & Ha & Hc). exists d. rewrite Hc.
    split; [exact Ha |]. split; [apply sorted_keys_NoDup |].
    intros code. apply sorted_keys_elem.
  - eexists. split; [reflexivity |]. split; [apply default_currencies_NoDup |].
    intros code. symmetry. apply codes_of_list_lookup.
Qed.

(** X11. Either [load_currencies] prints nothing and the list of codes is in
    ascending order, or it prints the error it caught, falls back on the
    nine default codes and leaves [currencies.json] as it was. *)
Theorem load_currencies_sorted_or_default s :
  (printed (load_currencies s) = printed s
   /\ StronglySorted str_le (currencies (load_currencies s)))
  \/ (exists e,
        printed (load_currencies s) = e :: printed s
        /\ currencies (load_currencies s) = default_currencies
        /\ available_currencies (load_currencies s) = codes_of_list default_currencies
        /\ currencies_file (load_currencies s) = currencies_file s).
Proof.
  unfold load_currencies.
  destruct (load_currencies_body_result s) as (Hp & H).
  destruct (load_currencies_body s) as [s' [u | e]]; simpl in *.
  - left. destruct H as (d & _ & ->). split; [exact Hp | apply sorted_keys_sorted].
  - right. exists e. rewrite Hp. auto.
Qed.

Lemma load_currencies_fresh_result s data v stamp d :
  currencies_file s = Some (Json (PDict data)) ->
  data !! "timestamp" = Some v ->
  as_float v = Ok stamp ->
  float_ltb (float_sub (now (cw s)) stamp) (float_of_Z currencies_timeout) = true ->
  match data !! "currencies" with
  | Some available => available
  | None => PDict ∅
  end = PDict d ->
  load_currencies s
  = {| cw := cw s; currencies_file := currencies_file s;
       currencies := merge_sort str_le (fst <$> map_to_list d);
       available_currencies := PDict d; printed := printed s |}.
Proof.
  intros Hf Hs Ha Hfresh Hcur.
  unfold load_currencies, load_currencies_body, cached_currencies, py_get, sorted_keys.
  run_load. run. rewrite Hf. simpl. rewrite Hs, Ha. simpl. rewrite Hfresh.
  rewrite Hcur. simpl. destruct (cw s). reflexivity.
Qed.

(** X12. A list younger than 24 hours in [currencies.json] is used as it is:
    the provider is not asked and the file is not written. A file without
    a [currencies] field counts as an empty list. *)
Theorem load_currencies_uses_fresh_file s data v stamp d :
  currencies_file s = Some (Json (PDict data)) ->
  data !! "timestamp" = Some v ->
  as_float v = Ok stamp ->
  float_ltb (float_sub (now (cw s)) stamp) (float_of_Z currencies_timeout) = true ->
  match data !! "currencies" with
  | Some available => available
  | None => PDict ∅
  end = PDict d ->
  load_currencies s
  = {| cw := cw s; currencies_file := currencies_file s;
       currencies := merge_sort str_le (fst <$> map_to_list d);
       available_currencies := PDict d; printed := printed s |}.
Proof. intros. eapply load_currencies_fresh_result; eassumption. Qed.

Lemma codes_of_keys_sorted (d : gmap string pyval) :
  merge_sort str_le
    (fst <$> map_to_list (map_imap (fun code _ => Some (PStr code)) d : gmap string pyval))
  = merge_sort str_le (fst <$> map_to_list d).
Proof.
  apply (StronglySorted_unique str_le); try apply sorted_keys_sorted.
  rewrite !merge_sort_Permutation.
  apply NoDup_Permutation; try apply NoDup_fst_map_to_list.
  intros code. rewrite !list_elem_of_fmap. split.
  - intros ([k v] & -> & Hkv). apply elem_of_map_to_list in Hkv.
    rewrite map_lookup_imap in Hkv. simpl.
    destruct (d !! k) as [x |] eqn:E; [| discriminate].
    exists (k, x). split; [reflexivity |]. apply elem_of_map_to_list. exact E.
  - intros ([k v] & -> & Hkv). apply elem_of_map_to_list in Hkv.
    exists (k, PStr k). split; [reflexivity |]. apply elem_of_map_to_list.
    rewrite map_lookup_imap, Hkv. reflexivity.
Qed.

Lemma load_currencies_fetch_result s body d :
  no_fresh_list s ->
  provider (cw s) "USD" = Body (Json (PDict body)) ->
  match body !! "rates" with
  | Some table => table
  | None => PDict ∅
  end = PDict d ->
  let codes : gmap string pyval := map_imap (fun code _ => Some (PStr code)) d in
  load_currencies s
  = {| cw := fst (requests_get_json "USD" (cw s));
       currencies_file := Some (Json (currencies_record (now (cw s)) (PDict codes)));
       currencies := merge_sort str_le (fst <$> map_to_list d);
       available_currencies := PDict codes;
       printed := printed s |}.
Proof.
  intros Hstale Hp Hrates codes. rewrite <- codes_of_keys_sorted. fold codes.
  unfold load_currencies, load_currencies_body, cached_currencies, py_get, sorted_keys,
    codes_of_keys, requests_get_json.
  destruct Hstale as [Hnone | (data & stamp & Hf & Ha & Hold)].
  - run_load. run. rewrite Hnone. simpl. rewrite Hp. simpl. rewrite Hrates. reflexivity.
  - run_load. run. rewrite Hf. simpl. rewrite Ha. simpl. rewrite Hold. simpl.
    rewrite Hp. simpl. rewrite Hrates. reflexivity.
Qed.

(** X13. With no list younger than 24 hours in [currencies.json], the provider
    is asked for the rates of USD; the codes of the table it answers with
    (none when the answer has no [rates] field) become the list, in
    ascending order, and are written to the file with the time of the
    call. *)
Theorem load_currencies_fetches s body d :
  no_fresh_list s ->
  provider (cw s) "USD" = Body (Json (PDict body)) ->
  match body !! "rates" with
  | Some table => table
  | None => PDict ∅
  end = PDict d ->
  let codes : gmap string pyval := map_imap (fun code _ => Some (PStr code)) d in
  load_currencies s
  = {| cw := fst (requests_get_json "USD" (cw s));
       currencies_file := Some (Json (currencies_record (now (cw s)) (PDict codes)));
       currencies := merge_sort str_le (fst <$> map_to_list d);
       available_currencies := PDict codes;
       printed := printed s |}.
Proof. intros. eapply load_currencies_fetch_result; eassumption. Qed.

Lemma currencies_record_timestamp t available :
  (<["timestamp" := PFloat t]> (<["currencies" := available]> ∅) : gmap string pyval)
    !! "timestamp" = Some (PFloat t).
Proof. apply lookup_insert_eq. Qed.

Lemma currencies_record_currencies t available :
  (<["timestamp" := PFloat t]> (<["currencies" := available]> ∅) : gmap string pyval)
    !! "currencies" = Some available.
Proof. rewrite lookup_insert_ne by discriminate. apply lookup_insert_eq. Qed.

(** X14. Round trip through [currencies.json]. The list that a load has fetched
    and written is the list that a later load, less than 24 hours after,
    reads back: same codes, same dict, and the provider is not asked
    again. *)
Theorem load_currencies_reads_back_its_list s body d t' :
  no_fresh_list s ->
  provider (cw s) "USD" = Body (Json (PDict body)) ->
  match body !! "rates" with
  | Some table => table
  | None => PDict ∅
  end = PDict d ->
  float_ltb (float_sub t' (now (cw s))) (float_of_Z currencies_timeout) = true ->
  let s1 := load_currencies s in
  load_currencies (converter_at t' s1) = converter_at t' s1.
Proof.
  intros Hstale Hp Hrates Hfresh s1.
  assert (Hs1 : s1 = _) by exact (load_currencies_fetch_result s body d Hstale Hp Hrates).
  cbv zeta in Hs1.
  set (codes := map_imap (fun code _ => Some (PStr code)) d : gmap string pyval) in *.
  rewrite (load_currencies_fresh_result (converter_at t' s1)
             (<["timestamp" := PFloat (now (cw s))]> (<["currencies" := PDict codes]> ∅))
             (PFloat (now (cw s))) (now (cw s)) codes).
  - assert (Hk : merge_sort str_le (fst <$> map_to_list codes)
                 = merge_sort str_le (fst <$> map_to_list d))
      by apply codes_of_keys_sorted.
    rewrite Hk, Hs1. reflexivity.
  - rewrite Hs1. reflexivity.
  - apply currencies_record_timestamp.
  - reflexivity.
  - simpl. exact Hfresh.
  - rewrite currencies_record_currencies. reflexivity.
Qed.

(** X15. A [currencies.json] that does not decode, or decodes to something
    other than an object, is never repaired: the load falls back on the
    default codes without asking the provider and leaves the file as it
    is, so every later load does the same. *)
Theorem load_currencies_keeps_a_bad_file s f :
  currencies_file s = Some f ->
  (forall data, f <> Json (PDict data)) ->
  exists e,
    load_currencies s
    = {| cw := cw s; currencies_file := Some f; currencies := default_currencies;
         available_currencies := codes_of_list default_currencies;
         printed := e :: printed s |}.
Proof.
  intros Hf Hbad.
  unfold load_currencies, load_currencies_body, cached_currencies, py_get.
  run_load. run. rewrite Hf. simpl.
  destruct f as [| v]; simpl.
  - eexists. simpl. rewrite ?Hf. reflexivity.
  - destruct v as [| b | n | x | str | l | d]; try (eexists; simpl; rewrite ?Hf; reflexivity).
    exfalso. apply (Hbad d). reflexivity.
Qed.

Lemma load_currencies_keeps_a_bad_file_witness :
  let s := {| cw := fresh_install; currencies_file := Some Malformed; currencies := [];
              available_currencies := PDict ∅; printed := [] |} in
  currencies (load_currencies s) = default_currencies
  /\ currencies_file (load_currencies s) = Some Malformed
  /\ cw (load_currencies s) = fresh_install.
Proof.
  intros s.
  destruct (load_currencies_keeps_a_bad_file s Malformed) as [e He].
  - reflexivity.
  - intros data. discriminate.
  - rewrite He. auto.
Defined.

Lemma load_currencies_fetches_witness :
  currencies (load_currencies first_start) = ["EUR"; "USD"]
  /\ printed (load_currencies first_start) = [].
Proof.
  rewrite (load_currencies_fetches first_start {["rates" := usd_table]}
             (<["EUR" := PFloat float_0_9]> (<["USD" := PInt 1]> ∅))).
  - split; [vm_compute; reflexivity | reflexivity].
  - left. reflexivity.
  - reflexivity.
  - reflexivity.
Defined.

Lemma load_currencies_reads_back_its_list_witness :
  load_currencies (converter_at noon (load_currencies first_start))
  = converter_at noon (load_currencies first_start).
Proof.
  apply (load_currencies_reads_back_its_list first_start {["rates" := usd_table]}
           (<["EUR" := PFloat float_0_9]> (<["USD" := PInt 1]> ∅)) noon).
  - left. reflexivity.
  - reflexivity.
  - reflexivity.
  - vm_compute. reflexivity.
Defined.

Lemma load_currencies_uses_fresh_file_witness :
  let s := {| cw := offline_install;
              currencies_file :=
                Some (Json (PDict {["timestamp" := PFloat (float_of_Z 1699999000)]}));
              currencies := []; available_currencies := PDict ∅; printed := [] |} in
  currencies (load_currencies s) = [] /\ cw (load_currencies s) = offline_install.
Proof.
  intros s.
  rewrite (load_currencies_uses_fresh_file s
             {["timestamp" := PFloat (float_of_Z 1699999000)]}
             (PFloat (float_of_Z 1699999000)) (float_of_Z 1699999000) ∅).
  - split; reflexivity.
  - reflexivity.
  - reflexivity.
  - reflexivity.
  - vm_compute. reflexivity.
  - reflexivity.
Defined.

(** ** Favorites *)

Ltac run_app :=
  cbv beta iota zeta delta
    [bind ret eval raise try_except read show set_favorites _save_favorites
     _load_favorites json_load favorites_at_start] in *;
  simpl in *.



(** X18. Adding the selected pair and deleting it again gives back the
    favorites there were, in the memory and in the file. *)
Theorem add_then_delete_favorite s d :
  favorites s = PDict d ->
  d !! favorite_id (base_currency s) (target_currency s) = None ->
  let id := favorite_id (base_currency s) (target_currency s) in
  let s' := fst (_delete_favorite id (fst (add_to_favorites s))) in
  favorites s' = PDict d /\ favorites_file s' = Some (Json (PDict d)).
Proof.
  intros Hd Hnone id s'. subst s'.
  unfold _delete_favorite, add_to_favorites, py_in, py_setitem, py_delitem.
  run_app. fold id in Hnone |- *. rewrite Hd. simpl. rewrite Hnone. simpl.
  destruct (current_tab s =? 2); simpl;
    rewrite lookup_insert_eq; simpl; rewrite delete_insert_id by exact Hnone; auto.
Qed.

(** The file mirrors the memory: at start the favorites are what the
    file holds. *)
Lemma favorites_in_sync_at_start s :
  favorites_in_sync (fst (favorites_at_start s)).
Proof.
  unfold favorites_in_sync. run_app.
  crunch; simpl in *; simplify_eq; run_app; crunch; simplify_eq; auto.
Qed.

(** X19. [add_to_favorites] and [_delete_favorite] keep the file in step with
    the memory, whatever they are given and however they end: a later
    start would load exactly the favorites now in memory. *)
Theorem favorites_stay_in_sync s :
  favorites_in_sync s ->
  favorites_in_sync (fst (add_to_favorites s))
  /\ forall id, favorites_in_sync (fst (_delete_favorite id s)).
Proof.
  unfold favorites_in_sync. intros Hsync. split; [| intros id].
  - unfold add_to_favorites. run_app.
    crunch; simpl in *; simplify_eq; auto; congruence.
  - unfold _delete_favorite. run_app.
    crunch; simpl in *; simplify_eq; auto; congruence.
Qed.



(** X22. The id of a favorite names its pair when the base codes hold no
    underscore: two pairs with the same id are the same pair. *)
Theorem favorite_id_names_the_pair base1 target1 base2 target2 :
  has_underscore base1 = false ->
  has_underscore base2 = false ->
  favorite_id base1 target1 = favorite_id base2 target2 ->
  base1 = base2 /\ target1 = target2.
Proof.
  unfold favorite_id. revert base2.
  induction base1 as [| c1 b1 IH]; intros [| c2 b2] H1 H2 Heq; simpl in *.
  - inversion Heq. auto.
  - inversion Heq; subst. apply orb_false_elim in H2 as [Hc _].
    rewrite Ascii.eqb_refl in Hc. discriminate.
  - inversion Heq; subst. apply orb_false_elim in H1 as [Hc _].
    rewrite Ascii.eqb_refl in Hc. discriminate.
  - inversion Heq; subst.
    apply orb_false_elim in H1 as [_ H1]. apply orb_false_elim in H2 as [_ H2].
    destruct (IH b2 H1 H2) as [-> ->]; auto.
Qed.

(** With an underscore in a base code two different pairs can share an
    id, and the second is then refused as already saved. *)
Example favorite_id_collision :
  favorite_id "A_B" "C" = favorite_id "A" "B_C".
Proof. reflexivity. Qed.



Lemma add_then_delete_favorite_witness :
  let s := app_with (PDict ∅) in
  favorites (fst (_delete_favorite "USD_EUR" (fst (add_to_favorites s)))) = PDict ∅.
Proof.
  intros s.
  destruct (add_then_delete_favorite s ∅ eq_refl eq_refl) as [H _]. exact H.
Defined.

Lemma favorites_stay_in_sync_witness :
  favorites_in_sync (fst (add_to_favorites (app_with (PDict ∅)))).
Proof.
  destruct (favorites_stay_in_sync (app_with (PDict ∅)) eq_refl) as [H _]. exact H.
Defined.



Lemma favorite_id_names_the_pair_witness :
  "USD"%string = "USD"%string /\ "EUR"%string = "EUR"%string.
Proof.
  apply (favorite_id_names_the_pair "USD" "EUR" "USD" "EUR"); reflexivity.
Defined.

(** ** Tick labels *)

Lemma every_nth_length {A : Type} (step skip : nat) (l : list A) :
  (skip < step)%nat ->
  (length (every_nth step skip l) * step + skip <= length l + step - 1
   /\ length l <= length (every_nth step skip l) * step + skip)%nat.
Proof.
  revert skip. induction l as [| x l IH]; intros skip Hlt; simpl.
  - lia.
  - destruct skip as [| k]; simpl.
    + destruct (IH (step - 1)%nat) as [H1 H2]; [lia |]. lia.
    + destruct (IH k) as [H1 H2]; [lia |]. lia.
Qed.

Lemma every_nth_sublist {A : Type} (step skip : nat) (l : list A) :
  sublist (every_nth step skip l) l.
Proof.
  revert skip. induction l as [| x l IH]; intros skip; simpl.
  - constructor.
  - destruct skip; [apply sublist_skip | apply sublist_cons]; apply IH.
Qed.

(** X23. The tick labels of the chart: the slice never fails (the step is at
    least 2 when it is used), the labels are dates of the series in their
    order, starting with the oldest, and there are at most ten of them;
    a series of more than ten dates gets between five and seven labels. *)
Theorem chart_ticks_few {A : Type} (dates : list A) :
  exists ticks,
    chart_ticks dates = Some ticks
    /\ sublist ticks dates
    /\ head ticks = head dates
    /\ (length ticks <= 10)%nat
    /\ ((10 < length dates)%nat -> (5 <= length ticks <= 7)%nat).
Proof.
  unfold chart_ticks.
  destruct (10 <? length dates)%nat eqn:Hlen.
  - apply Nat.ltb_lt in Hlen.
    pose proof (Nat.div_mod_eq (length dates) 5) as Hdiv.
    pose proof (Nat.mod_upper_bound (length dates) 5 ltac:(lia)) as Hmod.
    destruct (length dates / 5)%nat as [| k] eqn:Hstep; [lia |].
    simpl. eexists. split; [reflexivity |].
    destruct (every_nth_length (S k) 0 dates ltac:(lia)) as [Hup Hlow].
    set (c := length (every_nth (S k) 0 dates)) in *.
    assert (5 <= c <= 7)%nat by nia.
    repeat split; try lia.
    + apply every_nth_sublist.
    + destruct dates; reflexivity.
  - apply Nat.ltb_ge in Hlen. eexists. repeat split; auto; lia.
Qed.
